(** * Daystar research hub: the classification and matching core

    A shallow embedding of
      - [research_graph/utils.py]    (class [SDGClassifier]),
      - [research_graph/services.py] (embedding and matching services),
      - [research_graph/models.py] and [serializers.py] (the SDG labels
        and [Publication.save]),
      - [research_graph/signals.py]  (the pre-save handlers), and
      - [research_graph/tasks.py]    (the collaboration graph),
    together with the properties stated about them.

    Conventions of the embedding.
      - A Python [str] is a [string]; its characters are the code points
        U+0000..U+00FF.  [isspace] and [lower_char] follow Python on that
        range.
      - The classifier's numbers (credits, ratios, thresholds) are rationals
        [Q].  A Python [float] is the rational its double stands for, and a
        threshold is the exact value of the number passed.  The division
        of the match count by the number of keywords rounds as Python's
        does ([PyFloat.true_divide]); the sum [threshold + 0.1] of
        [classify_publication] is the exact sum, which at the default
        threshold selects what the float sum selects.
      - The numbers of the vector services are reals [R] (norms and cosine
        distances need square roots); a distance or a score, which can be
        NaN, is a [float8].
      - Python exceptions are values of [result]; [try ... except Exception]
        is [try_except]. *)

From Stdlib Require Import ZArith QArith Qround Reals Lra Lia Psatz.
From Stdlib Require Import Ascii String List Sorting.Sorted.
From stdpp Require Import base decidable list strings gmap sorting.

(** ** Python strings *)

Module PyStr.

Local Open Scope N_scope.

Definition ord (c : ascii) : N := N_of_ascii c.

(** [str.isspace] on U+0000..U+00FF: TAB..CR, FS..US, SPACE, NEL, NBSP.
    This is also what [\s] matches and what [split] and [strip] cut at. *)
Definition isspace (c : ascii) : bool :=
  let n := ord c in
  ((9 <=? n) && (n <=? 13)) || ((28 <=? n) && (n <=? 32))
  || (n =? 133) || (n =? 160).

(** [str.lower] on one character: A..Z, and the Latin-1 capitals
    U+00C0..U+00DE without the multiplication sign U+00D7. *)
Definition lower_char (c : ascii) : ascii :=
  let n := ord c in
  if ((65 <=? n) && (n <=? 90))
     || ((192 <=? n) && (n <=? 222) && negb (n =? 215))
  then ascii_of_N (n + 32) else c.

Fixpoint map_chars (f : ascii -> ascii) (s : string) : string :=
  match s with
  | EmptyString => EmptyString
  | String c s' => String (f c) (map_chars f s')
  end.

Definition lower (s : string) : string := map_chars lower_char s.

Fixpoint all_chars (p : ascii -> bool) (s : string) : bool :=
  match s with
  | EmptyString => true
  | String c s' => p c && all_chars p s'
  end.

(** [s.lstrip()], [s.rstrip()] and [s.strip()] without argument. *)
Fixpoint lstrip (s : string) : string :=
  match s with
  | EmptyString => EmptyString
  | String c s' => if isspace c then lstrip s' else s
  end.

Fixpoint rstrip (s : string) : string :=
  match s with
  | EmptyString => EmptyString
  | String c s' =>
      match rstrip s' with
      | EmptyString => if isspace c then EmptyString else String c EmptyString
      | r => String c r
      end
  end.

Definition strip (s : string) : string := rstrip (lstrip s).

(** [s.split()] without argument: the maximal runs of non-space characters,
    in order.  [word] is the run being scanned. *)
Definition emit (word : string) : list string :=
  match word with
  | EmptyString => []
  | _ => [word]
  end.

Fixpoint split_from (word : string) (s : string) : list string :=
  match s with
  | EmptyString => emit word
  | String c s' =>
      if isspace c then emit word ++ split_from EmptyString s'
      else split_from (word +:+ String c EmptyString) s'
  end.

Definition split (s : string) : list string := split_from EmptyString s.

(** [sep.join(words)] *)
Fixpoint join (sep : string) (words : list string) : string :=
  match words with
  | [] => EmptyString
  | [w] => w
  | w :: ws => w +:+ sep +:+ join sep ws
  end.

(** Truth value of a [str]: the empty string is false. *)
Definition truthy (s : string) : bool :=
  match s with
  | EmptyString => false
  | _ => true
  end.

(** A word: a non-empty string without white space, as [split] returns. *)
Definition word (w : string) : Prop :=
  w ≠ EmptyString ∧ all_chars (λ c, negb (isspace c)) w = true.

End PyStr.

(** ** Python floats *)

Module PyFloat.

(** [m * 2 ** p], the value of a double with significand [m] and
    exponent [p]. *)
Definition ldexp (m p : Z) : Q :=
  match p with
  | Z0 => inject_Z m
  | Zpos n => inject_Z (m * 2 ^ Zpos n)
  | Zneg n => m # 2 ^ n
  end.

(** The integer nearest to [n / d], for [0 < d]; of two nearest integers,
    the even one (the rounding of IEEE 754 arithmetic). *)
Definition round_half_even (n d : Z) : Z :=
  match (2 * (n mod d) ?= d)%Z with
  | Lt => (n / d)%Z
  | Gt => (n / d + 1)%Z
  | Eq => if Z.even (n / d) then (n / d)%Z else (n / d + 1)%Z
  end.

(** The exponent [e] of the quotient of two positive integers:
    [2 ** e <= a / b < 2 ** (e + 1)]. *)
Definition exponent (a b : Z) : Z :=
  let d := (Z.log2 a - Z.log2 b)%Z in
  if (a * 2 ^ Z.max 0 (- d) <? b * 2 ^ Z.max 0 d)%Z then (d - 1)%Z else d.

(** [a / b] on two [int]s with [0 <= a] and [0 < b]: the double nearest to
    the quotient, that is the quotient rounded to 53 significant bits, ties
    to even.  The quotient is taken to lie in the normal range of doubles
    (from 2 ** -1022 up to, and not including, 2 ** 1024), as the quotient
    of a match count by the length of a list always does. *)
Definition true_divide (a b : Z) : Q :=
  if (a =? 0)%Z then 0%Q
  else
    let p := (exponent a b - 52)%Z in
    ldexp (round_half_even (a * 2 ^ Z.max 0 (- p)) (b * 2 ^ Z.max 0 p)) p.

End PyFloat.

(** ** The SDG classifier ([research_graph/utils.py]) *)

Module SDGClassifier.

Import PyStr PyFloat.

(** [SDGChoices] ([models.py], lines 8-26): a text enumeration, in
    declaration order. *)
Inductive SDGChoices : Set :=
  | SDG_1 | SDG_2 | SDG_3 | SDG_4 | SDG_5 | SDG_6 | SDG_7 | SDG_8 | SDG_9
  | SDG_10 | SDG_11 | SDG_12 | SDG_13 | SDG_14 | SDG_15 | SDG_16 | SDG_17.

(** The [str] value of a member; members compare and hash as this value. *)
Definition value (c : SDGChoices) : string :=
  match c with
  | SDG_1 => "SDG_1" | SDG_2 => "SDG_2" | SDG_3 => "SDG_3"
  | SDG_4 => "SDG_4" | SDG_5 => "SDG_5" | SDG_6 => "SDG_6"
  | SDG_7 => "SDG_7" | SDG_8 => "SDG_8" | SDG_9 => "SDG_9"
  | SDG_10 => "SDG_10" | SDG_11 => "SDG_11" | SDG_12 => "SDG_12"
  | SDG_13 => "SDG_13" | SDG_14 => "SDG_14" | SDG_15 => "SDG_15"
  | SDG_16 => "SDG_16" | SDG_17 => "SDG_17"
  end.

(** The goal number of a member: its position in the declaration. *)
Definition goal (c : SDGChoices) : nat :=
  match c with
  | SDG_1 => 1 | SDG_2 => 2 | SDG_3 => 3 | SDG_4 => 4 | SDG_5 => 5
  | SDG_6 => 6 | SDG_7 => 7 | SDG_8 => 8 | SDG_9 => 9 | SDG_10 => 10
  | SDG_11 => 11 | SDG_12 => 12 | SDG_13 => 13 | SDG_14 => 14
  | SDG_15 => 15 | SDG_16 => 16 | SDG_17 => 17
  end.

Definition choices : list SDGChoices :=
  [SDG_1; SDG_2; SDG_3; SDG_4; SDG_5; SDG_6; SDG_7; SDG_8; SDG_9;
   SDG_10; SDG_11; SDG_12; SDG_13; SDG_14; SDG_15; SDG_16; SDG_17].

Definition of_value (s : string) : option SDGChoices :=
  List.find (fun c => String.eqb (value c) s) choices.

#[global] Instance SDGChoices_eq_dec : EqDecision SDGChoices.
Proof. solve_decision. Defined.

#[global] Instance SDGChoices_countable : Countable SDGChoices.
Proof.
  apply (inj_countable value of_value).
  intros c. destruct c; reflexivity.
Defined.

(** [SDG_KEYWORDS] ([utils.py], lines 24-128): a dict literal, iterated in
    insertion order. *)
Definition SDG_KEYWORDS : list (SDGChoices * list string) :=
  [ (SDG_1,
     ["poverty"; "poor"; "low-income"; "vulnerable"; "disadvantaged";
      "economic inequality"; "welfare"; "subsistence"; "destitution";
      "extreme poverty"; "absolute poverty"; "poverty alleviation";
      "impoverished"; "impoverishment"; "deprivation"; "inequitable";
      "income inequality"; "wealth gap"; "economic disparity"]);
    (SDG_2,
     ["hunger"; "food security"; "malnutrition"; "famine"; "starvation";
      "agriculture"; "crop"; "farming"; "livestock"; "nutrition";
      "food production"; "agricultural productivity"; "food supply";
      "subsistence farming"; "food insecurity"; "dietary"; "nutritional"]);
    (SDG_3,
     ["health"; "disease"; "medical"; "healthcare"; "illness"; "wellness";
      "hospital"; "clinic"; "physician"; "medicine"; "treatment"; "vaccine";
      "mortality"; "morbidity"; "epidemiology"; "pandemic"; "epidemic";
      "mental health"; "well-being"; "healthy"; "sanitation"; "hygiene"]);
    (SDG_4,
     ["education"; "learning"; "school"; "university"; "student";
      "teacher"; "curriculum"; "academic"; "literacy"; "training";
      "skill development"; "educational"; "pedagogical"; "didactic";
      "higher education"; "primary education"; "secondary education";
      "quality education"; "equal education"]);
    (SDG_5,
     ["gender equality"; "gender"; "women"; "female"; "woman";
      "feminism"; "feminist"; "discrimination"; "bias"; "equity";
      "women's rights"; "gender-based violence"; "sexual harassment";
      "empowerment"; "gender parity"; "male-female"; "gender gap"]);
    (SDG_6,
     ["water"; "sanitation"; "hygiene"; "clean water"; "drinking water";
      "water supply"; "water treatment"; "wastewater"; "sewage";
      "water quality"; "water scarcity"; "water pollution"; "aquatic";
      "hydration"; "water security"; "water resources"]);
    (SDG_7,
     ["energy"; "renewable"; "solar"; "wind"; "hydroelectric"; "geothermal";
      "fossil fuel"; "electricity"; "power"; "clean energy";
      "sustainable energy"; "energy efficiency"; "energy access";
      "energy security"; "biofuel"; "nuclear energy"; "energy transition"]);
    (SDG_8,
     ["employment"; "jobs"; "work"; "labor"; "labour"; "wage"; "workplace";
      "economic growth"; "economic development"; "productivity";
      "entrepreneurship"; "business"; "decent work"; "working conditions";
      "unemployment"; "formal employment"; "informal economy"]);
    (SDG_9,
     ["infrastructure"; "industry"; "innovation"; "technology"; "industrial";
      "manufacturing"; "construct"; "bridge"; "road"; "transport";
      "innovation"; "research"; "development"; "industrial development";
      "resilient infrastructure"; "sustainable industry"; "ict"]);
    (SDG_10,
     ["inequality"; "inequitable"; "inequity"; "discrimination";
      "marginalize"; "disadvantaged"; "vulnerable"; "disparity"; "gap";
      "unequal"; "social inclusion"; "social cohesion"; "redistribution";
      "equity"]);
    (SDG_11,
     ["city"; "urban"; "community"; "settlement"; "housing"; "slum";
      "sustainable city"; "sustainable community"; "livable"; "resilient";
      "disaster reduction"; "infrastructure"; "pollution"; "green space";
      "public transport"; "municipal"]);
    (SDG_12,
     ["consumption"; "production"; "waste"; "recycle"; "circular economy";
      "sustainable consumption"; "responsible consumption"; "resource";
      "material"; "pollution"; "sustainable management"; "reduce";
      "reuse"; "repurpose"; "lifecycle"; "footprint"]);
    (SDG_13,
     ["climate"; "global warming"; "greenhouse gas"; "carbon"; "emissions";
      "temperature"; "weather"; "climate change"; "mitigation"; "adaptation";
      "climate action"; "climate variability"; "extreme weather"; "gdp";
      "carbon dioxide"; "methane"; "environmental"]);
    (SDG_14,
     ["ocean"; "marine"; "sea"; "aquatic"; "fish"; "fishing"; "coral";
      "marine ecosystem"; "biodiversity"; "ocean acidification"; "pollution";
      "overfishing"; "sustainable fisheries"; "coastal"; "blue economy";
      "maritime"; "water body"]);
    (SDG_15,
     ["forest"; "woodland"; "terrestrial"; "ecosystem"; "biodiversity";
      "species"; "wildlife"; "conservation"; "endangered"; "habitat";
      "deforestation"; "land degradation"; "desertification"; "wetland";
      "vegetation"; "fauna"; "flora"]);
    (SDG_16,
     ["peace"; "justice"; "institution"; "governance"; "corruption";
      "violence"; "conflict"; "law enforcement"; "legal"; "rule of law";
      "human rights"; "discrimination"; "accountability"; "transparency";
      "democratic"; "inclusive"]);
    (SDG_17,
     ["partnership"; "collaboration"; "cooperation"; "stakeholder";
      "multi-stakeholder"; "network"; "alliance"; "development"; "finance";
      "investment"; "technology transfer"; "capacity building";
      "global partnership"; "sustainable development"]) ].

(** [re.sub(r'[^a-z0-9\s\-]', ' ', text)]: every character outside the
    class becomes one space. *)
Definition in_class (c : ascii) : bool :=
  let n := ord c in
  ((97 <=? n) && (n <=? 122))%N || ((48 <=? n) && (n <=? 57))%N
  || isspace c || (n =? 45)%N.

(** The characters a token of a normalised text is made of:
    lowercase letters, digits and the hyphen. *)
Definition token_char (c : ascii) : bool :=
  let n := ord c in
  ((97 <=? n) && (n <=? 122))%N || ((48 <=? n) && (n <=? 57))%N
  || (n =? 45)%N.

(** What the substitution does to one character. *)
Definition sub_special (c : ascii) : ascii :=
  if in_class c then c else " "%char.

(** [_normalize_text] ([utils.py], lines 221-239) *)
Definition _normalize_text (text : string) : string :=
  let text := lower text in
  let text := map_chars sub_special text in
  let text := join " " (split text) in
  text.

(** [_tokenize] ([utils.py], lines 241-244): [set(text.split())] *)
Definition _tokenize (text : string) : gset string :=
  list_to_set (split text).

(** [int(x)] for a rational: truncation toward zero. *)
Definition int_of (q : Q) : Z := Z.quot (Qnum q) (Zpos (Qden q)).

(** One iteration of the loop of [_count_keyword_matches]
    ([utils.py], lines 257-267). *)
Definition count_keyword (tokens : gset string) (count : Q) (keyword : string)
  : Q :=
  let keyword_lower := lower keyword in
  let keyword_tokens := split keyword_lower in
  if forallb (fun token => bool_decide (token ∈ tokens)) keyword_tokens
  then (count + 1)%Q
  else if existsb (fun token => bool_decide (token ∈ tokens)) keyword_tokens
  then (count + (1 # 2))%Q
  else count.

(** [_count_keyword_matches] ([utils.py], lines 246-269) *)
Definition _count_keyword_matches (tokens : gset string)
    (keywords : list string) : Z :=
  let count := fold_left (count_keyword tokens) keywords 0%Q in
  int_of count.

(** One iteration of the loop of [classify_text] over [SDG_KEYWORDS]
    ([utils.py], lines 168-181).  The division is reached with
    [1 <= matches <= len(keywords)], and its result, a double, is compared
    with the threshold exactly. *)
Definition classify_step (tokens : gset string) (threshold : Q)
    (detected_sdgs : list SDGChoices) (item : SDGChoices * list string)
  : list SDGChoices :=
  let '(sdg_choice, keywords) := item in
  let matches := _count_keyword_matches tokens keywords in
  if (matches =? 0)%Z then detected_sdgs
  else
    let match_ratio := true_divide matches (Z.of_nat (length keywords)) in
    if Qle_bool threshold match_ratio
    then detected_sdgs ++ [sdg_choice]
    else detected_sdgs.

(** [classify_text] ([utils.py], lines 130-183) *)
Definition classify_text (text : string) (threshold : Q) : list SDGChoices :=
  if negb (truthy text) || negb (truthy (strip text)) then []
  else
    let normalized_text := _normalize_text text in
    let tokens := _tokenize normalized_text in
    fold_left (classify_step tokens threshold) SDG_KEYWORDS [].

(** [sorted] on a list of members: they compare as their [str] values. *)
Definition code_le (a b : SDGChoices) : Prop := String.le (value a) (value b).

#[global] Instance code_le_dec : RelDecision code_le.
Proof. intros a b. unfold code_le. apply _. Defined.

Definition sorted (l : list SDGChoices) : list SDGChoices :=
  merge_sort code_le l.

(** [classify_publication] ([utils.py], lines 185-219) *)
Definition classify_publication (title abstract : string) (threshold : Q)
  : list SDGChoices :=
  let sdgs_detected : gset SDGChoices := ∅ in
  let sdgs_detected :=
    if truthy title
    then
      let title_sdgs := classify_text title (threshold + (1 # 10))%Q in
      sdgs_detected ∪ list_to_set title_sdgs
    else sdgs_detected in
  let sdgs_detected :=
    if truthy abstract
    then
      let abstract_sdgs := classify_text abstract threshold in
      sdgs_detected ∪ list_to_set abstract_sdgs
    else sdgs_detected in
  sorted (elements sdgs_detected).

(** The test [classify_text] applies to one entry of [SDG_KEYWORDS]. *)
Definition passes (tokens : gset string) (threshold : Q)
    (item : SDGChoices * list string) : bool :=
  let matches := _count_keyword_matches tokens item.2 in
  negb (matches =? 0)%Z
  && Qle_bool threshold (true_divide matches (Z.of_nat (length item.2))).

(** [get_keywords_for_sdg] ([utils.py], lines 291-304):
    [SDG_KEYWORDS.get(sdg_choice, [])]. *)
Definition get_keywords_for_sdg (sdg_choice : SDGChoices) : list string :=
  match
    List.find (fun item => bool_decide (item.1 = sdg_choice)) SDG_KEYWORDS
  with
  | Some item => item.2
  | None => []
  end.

(** *** The scoring rule as the specification words it

    A phrase earns 1 when every one of its words is a token, 1/2 when at
    least one (but not every one) is, and 0 otherwise; the credits are
    summed, the sum is truncated to an integer and divided by the number
    of phrases. *)
Definition spec_credit (T : gset string) (k : string) : Q :=
  if decide (Forall (λ w, w ∈ T) (split k)) then 1%Q
  else if decide (Exists (λ w, w ∈ T) (split k)) then (1 # 2)%Q
  else 0%Q.

Definition spec_credits (T : gset string) (K : list string) : Q :=
  foldr Qplus 0%Q (spec_credit T <$> K).

Definition spec_matches (T : gset string) (K : list string) : Z :=
  int_of (spec_credits T K).

Definition spec_ratio (T : gset string) (K : list string) : Q :=
  (inject_Z (spec_matches T K) / inject_Z (Z.of_nat (length K)))%Q.

(** The ratio as [classify_text] computes it: the same quotient, rounded
    to a double by Python's division. *)
Definition float_ratio (T : gset string) (K : list string) : Q :=
  true_divide (spec_matches T K) (Z.of_nat (length K)).

(** The double nearest to 3/17, the literal [0.17647058823529413]; it is
    larger than 3/17. *)
Definition float_3_17 : Q := 6358023003346583 # 36028797018963968.

(** The literal [0.3], the default threshold, and the float sum
    [0.3 + 0.1], which is the literal [0.4]. *)
Definition float_0_3 : Q := 5404319552844595 # 18014398509481984.
Definition float_0_4 : Q := 3602879701896397 # 9007199254740992.

(** A publication whose abstract names six phrases of SDG_2 and five of
    SDG_10. *)
Definition order_title : string := "Hunger and inequality".

Definition order_abstract : string :=
  "Hunger, malnutrition, famine and starvation follow crop failure in agriculture; inequality, inequity and disparity marginalize unequal communities.".

(** A text of white space only: a tab, a space and a line feed. *)
Definition blank_text : string :=
  String "009" (String " " (String "010" EmptyString)).

(** The token set the classifier derives from a text. *)
Definition tokens_of (text : string) : gset string :=
  _tokenize (_normalize_text text).

End SDGClassifier.

(** ** The embedding and matching services ([research_graph/services.py]) *)

Module Services.

Import PyStr.

(** *** Exceptions and state *)

(** The exceptions the services can meet; all are subclasses of
    [Exception]. *)
Inductive exn : Set :=
  | ValueError | TypeError | AttributeError | RuntimeError | DataError.

Inductive result (A : Type) : Type :=
  | Ok (a : A)
  | Raise (e : exn).
Arguments Ok {A} a.
Arguments Raise {A} e.

Inductive level : Set := INFO | WARNING | ERROR.

(** What lies outside the repository: the interpreter's string hash (fixed
    within one process), numpy's global generator and the
    sentence-transformers backend. *)
Class Runtime : Type := {
  Model : Type;
  load_model : option Model;
  encode : Model → string → result (list R);
  hash : string → Z;
  RNG : Type;
  seed : Z → RNG;
  randn : nat → RNG → list R * RNG;
}.

(** The module-level [_embedding_model]: [None] before the first use, the
    model once loaded, [False] after a failed load. *)
Inductive handle `{Runtime} : Type :=
  | NotLoaded
  | Loaded (m : Model)
  | LoadFailed.

Record Researcher : Type := {
  researcher_id : nat;
  department : option string;
  interests_embedding : option (list R);
}.

Record Publication : Type := {
  publication_id : nat;
  abstract_embedding : option (list R);
}.

(** The state a call can read or change: the model handle, numpy's global
    generator, the log, and the two tables the queries read. *)
Record State `{Runtime} : Type := {
  _embedding_model : handle;
  rng : RNG;
  log : list (level * string);
  researchers : list Researcher;
  publications : list Publication;
}.

Section WithRuntime.

Context `{rt : Runtime}.

(** A computation: it ends with a value or an exception, and a state. *)
Definition M (A : Type) : Type := State → result A * State.

#[export] Instance M_ret : MRet M := λ A a s, (Ok a, s).

#[export] Instance M_bind : MBind M := λ A B f m s,
  match m s with
  | (Ok a, s') => f a s'
  | (Raise e, s') => (Raise e, s')
  end.

Definition get_state : M State := λ s, (Ok s, s).

Definition lift {A} (r : result A) : M A := λ s, (r, s).

(** [try: body except Exception as e: handler e] *)
Definition try_except {A} (body : M A) (handler : exn → M A) : M A := λ s,
  match body s with
  | (Ok a, s') => (Ok a, s')
  | (Raise e, s') => handler e s'
  end.

Definition logger (l : level) (message : string) : M unit := λ s,
  (Ok tt, {| _embedding_model := _embedding_model s; rng := rng s;
             log := log s ++ [(l, message)];
             researchers := researchers s; publications := publications s |}).

Definition set_embedding_model (h : handle) : M unit := λ s,
  (Ok tt, {| _embedding_model := h; rng := rng s; log := log s;
             researchers := researchers s; publications := publications s |}).

(** [np.random.seed(n)] *)
Definition np_random_seed (n : Z) : M unit := λ s,
  (Ok tt, {| _embedding_model := _embedding_model s; rng := seed n;
             log := log s;
             researchers := researchers s; publications := publications s |}).

(** [np.random.randn(n)] *)
Definition np_random_randn (n : nat) : M (list R) := λ s,
  let '(sample, g) := randn n (rng s) in
  (Ok sample, {| _embedding_model := _embedding_model s; rng := g;
                 log := log s;
                 researchers := researchers s;
                 publications := publications s |}).

(** *** Vectors *)

Fixpoint dot (u v : list R) : R :=
  match u, v with
  | x :: u', y :: v' => (x * y + dot u' v')%R
  | _, _ => 0%R
  end.

(** [np.linalg.norm] *)
Definition norm (u : list R) : R := sqrt (dot u u).

(** A float that can be NaN: a [double precision] value of the database,
    and the Python float made from it. *)
Inductive float8 : Type :=
  | Num (x : R)
  | NaN.

(** The cosine distance of two non-zero vectors of one length. *)
Definition cosine (u v : list R) : R :=
  (1 - dot u v / sqrt (dot u u * dot v v))%R.

(** The cosine distance as scipy and pgvector compute it: with a zero
    vector the quotient is 0/0, and the distance is NaN. *)
Definition cosine_distance (u v : list R) : float8 :=
  if Req_dec_T (dot u u * dot v v) 0 then NaN else Num (cosine u v).

(** [scipy.spatial.distance.cosine]: vectors of different lengths are
    refused with a [ValueError]. *)
Definition scipy_cosine (u v : list R) : result float8 :=
  if (length u =? length v)%nat then Ok (cosine_distance u v)
  else Raise ValueError.

(** pgvector's [<=>]: the database refuses vectors of different
    dimensions, which Django raises as a [DataError]. *)
Definition pg_cosine_distance (u v : list R) : result float8 :=
  if (length u =? length v)%nat then Ok (cosine_distance u v)
  else Raise DataError.

(** The order of [ORDER BY] on [double precision]: NaN is equal to itself
    and larger than every number. *)
Definition float8_le (x y : float8) : Prop :=
  match x, y with
  | Num a, Num b => (a <= b)%R
  | _, NaN => True
  | NaN, Num _ => False
  end.

(** [1 - (distance / 2)] on floats: NaN stays NaN. *)
Definition similarity_score (distance : float8) : float8 :=
  match distance with
  | Num d => Num (1 - d / 2)
  | NaN => NaN
  end.

(** The order in which the scores of a ranking are listed: the numbers
    from the largest down, then NaN. *)
Definition score_ge (x y : float8) : Prop :=
  match x, y with
  | Num a, Num b => (b <= a)%R
  | _, NaN => True
  | NaN, Num _ => False
  end.

(** [CosineDistance()] ([services.py], line 339): pgvector's
    [CosineDistance] takes the expression and the vector as required
    positional arguments, so the call without arguments raises a
    [TypeError], before the rest of the line is evaluated. *)
Definition CosineDistance_without_arguments : result unit := Raise TypeError.

(** The vector [k * u]. *)
Definition scale (k : R) (u : list R) : list R := Rmult k <$> u.

(** Python's [min] and [max] on two numbers: the first argument wins
    unless the second is strictly better. *)
Definition py_min (a b : R) : R := if Rlt_dec b a then b else a.
Definition py_max (a b : R) : R := if Rlt_dec a b then b else a.

(** *** [get_embedding_model] ([services.py], lines 23-33) *)

Definition get_embedding_model : M (option Model) :=
  s ← get_state;
  match _embedding_model s with
  | NotLoaded =>
      match load_model with
      | Some m => set_embedding_model (Loaded m);; mret (Some m)
      | None =>
          logger ERROR "Failed to load embedding model";;
          set_embedding_model LoadFailed;;
          mret None
      end
  | Loaded m => mret (Some m)
  | LoadFailed => mret None
  end.

(** *** [EmbeddingService] *)

Definition EMBEDDING_DIMENSION : nat := 384.

(** [get_embedding] ([services.py], lines 46-80) *)
Definition get_embedding (text : string) : M (option (list R)) :=
  if negb (truthy text) || negb (truthy (strip text)) then mret None
  else
    try_except
      (model ← get_embedding_model;
       match model with
       | Some m =>
           embedding ← lift (encode m text);
           mret (Some embedding)
       | None =>
           np_random_seed (hash text mod 2 ^ 32);;
           embedding ← np_random_randn EMBEDDING_DIMENSION;
           let embedding := (λ x, x / norm embedding)%R <$> embedding in
           logger WARNING "Using fallback embedding for text";;
           mret (Some embedding)
       end)
      (λ e, logger ERROR "Error generating embedding";; mret None).

(** *** The ranking query *)

(** The rows that carry a vector, each with its distance to the query
    vector ([filter(..._embedding__isnull=False).annotate(...)]). *)
Fixpoint annotate {A} (vector : A → option (list R)) (query_vector : list R)
    (rows : list A) : result (list (A * float8)) :=
  match rows with
  | [] => Ok []
  | row :: rows' =>
      match vector row with
      | None => annotate vector query_vector rows'
      | Some v =>
          match pg_cosine_distance v query_vector with
          | Raise e => Raise e
          | Ok d =>
              match annotate vector query_vector rows' with
              | Raise e => Raise e
              | Ok rest => Ok ((row, d) :: rest)
              end
          end
      end
  end.

#[export] Instance float8_le_dec : RelDecision float8_le.
Proof.
  intros [a|] [b|]; simpl; [apply Rle_dec|left; exact I|right; tauto
                           |left; exact I].
Defined.

#[export] Instance by_distance_dec {A} :
  RelDecision (λ x y : A * float8, float8_le x.2 y.2).
Proof. intros x y. apply float8_le_dec. Defined.

(** Modelled from the spec: the database query the services build, which
    runs outside the repository.  The slice [query[:top_k]] refuses a
    negative [top_k], and with [top_k] zero it is the empty result, for
    which no query is sent.  Otherwise the rows that carry a vector are
    annotated with their cosine distance to the query vector (a vector of
    another dimension makes the query fail), ordered by ascending distance
    and cut to the first [top_k]. *)
Definition ranked {A} (vector : A → option (list R)) (query_vector : list R)
    (rows : list A) (top_k : Z) : result (list (A * float8)) :=
  if (top_k <? 0)%Z then Raise ValueError
  else if (top_k =? 0)%Z then Ok []
  else
    match annotate vector query_vector rows with
    | Raise e => Raise e
    | Ok annotated =>
        Ok (take (Z.to_nat top_k)
              (merge_sort (λ x y, float8_le x.2 y.2) annotated))
    end.

(** What a row of a result says: it is a row of the table, its vector has
    the query's dimension, and it carries the cosine distance of the
    two. *)
Definition annotated {A} (vector : A → option (list R)) (q : list R)
    (rows : list A) (row : A * float8) : Prop :=
  row.1 ∈ rows
  ∧ ∃ v, vector row.1 = Some v ∧ length v = length q
         ∧ row.2 = cosine_distance v q.

(** [if department: query = query.filter(department=department)] *)
Definition filter_department (department : option string)
    (rows : list Researcher) : list Researcher :=
  match department with
  | Some d =>
      if truthy d
      then filter (λ r, Services.department r = Some d) rows
      else rows
  | None => rows
  end.

(** *** [SupervisorMatchingService] *)

(** [find_supervisor_match] ([services.py], lines 132-193) *)
Definition find_supervisor_match (thesis_abstract : string)
    (department : option string) (top_k : Z)
  : M (list (Researcher * float8)) :=
  try_except
    (thesis_embedding ← get_embedding thesis_abstract;
     match thesis_embedding with
     | None =>
         logger WARNING "Failed to generate embedding for thesis abstract";;
         mret []
     | Some thesis_embedding =>
         s ← get_state;
         let query := filter_department department (researchers s) in
         rows ← lift (ranked interests_embedding thesis_embedding query top_k);
         let results :=
           (λ row : Researcher * float8, (row.1, similarity_score row.2))
             <$> rows in
         logger INFO "Found supervisor matches for thesis abstract";;
         mret results
     end)
    (λ e, logger ERROR "Error finding supervisor matches";; mret []).

(** Truth value of a stored vector, taken as the Python list that
    [get_embedding] returns and the signal handlers assign: absent or
    empty is false. *)
Definition has_vector (v : option (list R)) : option (list R) :=
  match v with
  | Some (x :: u) => Some (x :: u)
  | _ => None
  end.

(** [find_thesis_matches] ([services.py], lines 195-242) *)
Definition find_thesis_matches (researcher : Researcher) (top_k : Z)
  : M (list (Publication * float8)) :=
  try_except
    (match has_vector (interests_embedding researcher) with
     | None =>
         logger WARNING "Researcher has no embedding";;
         mret []
     | Some interests =>
         s ← get_state;
         rows ← lift (ranked abstract_embedding interests (publications s) top_k);
         let results :=
           (λ row : Publication * float8, (row.1, similarity_score row.2))
             <$> rows in
         logger INFO "Found publications matching researcher interests";;
         mret results
     end)
    (λ e, logger ERROR "Error finding publication matches";; mret []).

(** *** [GrantAlignmentService] *)

(** [find_aligned_researchers] ([services.py], lines 253-303) *)
Definition find_aligned_researchers (grant_description : string)
    (department : option string) (top_k : Z)
  : M (list (Researcher * float8)) :=
  try_except
    (grant_embedding ← get_embedding grant_description;
     match grant_embedding with
     | None =>
         logger WARNING "Failed to generate embedding for grant description";;
         mret []
     | Some grant_embedding =>
         s ← get_state;
         let query := filter_department department (researchers s) in
         rows ← lift (ranked interests_embedding grant_embedding query top_k);
         let results :=
           (λ row : Researcher * float8, (row.1, similarity_score row.2))
             <$> rows in
         logger INFO "Found researchers aligned with grant";;
         mret results
     end)
    (λ e, logger ERROR "Error finding aligned researchers";; mret []).

(** [score_researcher_for_grant] ([services.py], lines 305-352) *)
Definition score_researcher_for_grant (researcher : Researcher)
    (grant_description : string) : M R :=
  try_except
    (match has_vector (interests_embedding researcher) with
     | None => mret 0%R
     | Some researcher_vector =>
         grant_embedding ← get_embedding grant_description;
         match grant_embedding with
         | None => mret 0%R
         | Some grant_vector =>
             lift CosineDistance_without_arguments;;
             let similarity :=
               match scipy_cosine researcher_vector grant_vector with
               | Ok (Num distance_value) =>
                   if Rle_dec distance_value 2
                   then (1 - distance_value / 2)%R else 0%R
               | Ok NaN => 0%R
               | Raise _ => 0%R
               end in
             mret (py_max 0 (py_min 1 similarity))
         end
     end)
    (λ e, logger ERROR "Error scoring researcher-grant alignment";; mret 0%R).

(** *** The fallback vector as the specification words it

    Seed the generator from the hash of the text, draw D = 384
    standard-normal samples, and L2-normalise them. *)
Definition spec_fallback (text : string) : list R :=
  let sample := (randn 384 (seed (hash text mod 2 ^ 32))).1 in
  (λ x, x / sqrt (dot sample sample))%R <$> sample.

(** The primary backend is unavailable in a state: loading has failed, or
    has not been tried yet and will fail. *)
Definition unavailable (s : State) : Prop :=
  match _embedding_model s with
  | LoadFailed => True
  | NotLoaded => load_model = None
  | Loaded _ => False
  end.

End WithRuntime.

(** *** Two concrete runtimes, for the examples

    [offline]: the backend cannot be loaded; the generator is a counter and
    every sample is a vector of ones.  [tiny]: the backend loads and encodes
    every text as the plane vector (1, 0). *)
Definition offline : Runtime := {|
  Model := unit;
  load_model := None;
  encode := λ _ _, Raise RuntimeError;
  hash := λ text, Z.of_nat (String.length text);
  RNG := Z;
  seed := λ n, n;
  randn := λ n g, (repeat 1%R n, (g + 1)%Z);
|}.

Definition tiny : Runtime := {|
  Model := unit;
  load_model := Some tt;
  encode := λ _ _, Ok [1%R; 0%R];
  hash := λ text, Z.of_nat (String.length text);
  RNG := Z;
  seed := λ n, n;
  randn := λ n g, (repeat 1%R n, (g + 1)%Z);
|}.

Definition fresh `{Runtime} (g : RNG) (rs : list Researcher)
    (ps : list Publication) : State :=
  {| _embedding_model := NotLoaded; rng := g; log := [];
     researchers := rs; publications := ps |}.


(** A researcher whose stored vector has three components. *)
Definition alice : Researcher :=
  {| researcher_id := 1; department := Some "Computer Science";
     interests_embedding := Some [1%R; 0%R; 0%R] |}.

(** A researcher whose stored vector has two components. *)
Definition bob : Researcher :=
  {| researcher_id := 2; department := Some "Computer Science";
     interests_embedding := Some [1%R; 0%R] |}.

(** A researcher without a stored vector. *)
Definition carol : Researcher :=
  {| researcher_id := 3; department := None; interests_embedding := None |}.

(** A researcher whose stored vector is the zero vector. *)
Definition dana : Researcher :=
  {| researcher_id := 4; department := None;
     interests_embedding := Some [0%R; 0%R] |}.

End Services.

(** ** The model layer ([research_graph/models.py]) *)

Module Models.

Import PyStr SDGClassifier.

(** The label of a member of [SDGChoices] ([models.py], lines 10-26). *)
Definition label (c : SDGChoices) : string :=
  match c with
  | SDG_1 => "No Poverty"
  | SDG_2 => "Zero Hunger"
  | SDG_3 => "Good Health and Well-being"
  | SDG_4 => "Quality Education"
  | SDG_5 => "Gender Equality"
  | SDG_6 => "Clean Water and Sanitation"
  | SDG_7 => "Affordable and Clean Energy"
  | SDG_8 => "Decent Work and Economic Growth"
  | SDG_9 => "Industry, Innovation and Infrastructure"
  | SDG_10 => "Reduced Inequalities"
  | SDG_11 => "Sustainable Cities and Communities"
  | SDG_12 => "Responsible Consumption and Production"
  | SDG_13 => "Climate Action"
  | SDG_14 => "Life Below Water"
  | SDG_15 => "Life on Land"
  | SDG_16 => "Peace, Justice and Strong Institutions"
  | SDG_17 => "Partnerships for the Goals"
  end.

(** [SDGChoices.choices]: the pairs (value, label), in declaration order. *)
Definition SDGChoices_choices : list (string * string) :=
  (λ c, (value c, label c)) <$> choices.

(** [SDGClassifier.get_sdg_description] ([utils.py], lines 271-289): the
    label of the first choice whose value is the argument, the argument
    itself when there is none. *)
Fixpoint description_in (table : list (string * string)) (sdg_choice : string)
  : string :=
  match table with
  | [] => sdg_choice
  | (choice_value, choice_label) :: table' =>
      if String.eqb choice_value sdg_choice then choice_label
      else description_in table' sdg_choice
  end.

Definition get_sdg_description (sdg_choice : string) : string :=
  description_in SDGChoices_choices sdg_choice.

(** [PublicationSerializer.get_sdg_labels] ([serializers.py], lines 66-74):
    for each tag, the label of the first choice with that value is
    appended; a tag without choice adds nothing. *)
Fixpoint label_in (table : list (string * string)) (sdg_code : string)
  : list string :=
  match table with
  | [] => []
  | (choice_val, choice_label) :: table' =>
      if String.eqb choice_val sdg_code then [choice_label]
      else label_in table' sdg_code
  end.

Definition get_sdg_labels (sdg_tags : list string) : list string :=
  fold_left (λ labels sdg_code, labels ++ label_in SDGChoices_choices sdg_code)
    sdg_tags [].

(** The columns of a [Publication] that [save] reads and writes. *)
Record PublicationInstance : Type := {
  title : string;
  abstract : option string;
  sdg_tags : list string;
  sdg_auto_generated : bool;
}.

(** Truth value of a nullable text column. *)
Definition truthy_text (s : option string) : bool :=
  match s with
  | Some s => truthy s
  | None => false
  end.

Definition text_of (s : option string) : string :=
  match s with
  | Some s => s
  | None => EmptyString
  end.

(** [Publication.save] ([models.py], lines 113-138), up to the call of
    [super().save]. *)
Definition save (self : PublicationInstance) : PublicationInstance :=
  match sdg_tags self with
  | [] =>
      if truthy_text (abstract self) then
        let detected_sdgs :=
          classify_publication (title self) (text_of (abstract self))
            (3 # 10) in
        match detected_sdgs with
        | [] => self
        | _ =>
            {| title := title self; abstract := abstract self;
               sdg_tags := value <$> detected_sdgs;
               sdg_auto_generated := true |}
        end
      else
        {| title := title self; abstract := abstract self;
           sdg_tags := sdg_tags self; sdg_auto_generated := false |}
  | _ :: _ =>
      {| title := title self; abstract := abstract self;
         sdg_tags := sdg_tags self; sdg_auto_generated := false |}
  end.

(** A publication without tags whose abstract names SDG_2 and SDG_10, and
    one with a tag set by hand. *)
Definition hunger_paper : PublicationInstance :=
  {| title := order_title; abstract := Some order_abstract;
     sdg_tags := []; sdg_auto_generated := false |}.

Definition tagged_paper : PublicationInstance :=
  {| title := order_title; abstract := Some order_abstract;
     sdg_tags := ["SDG_4"]; sdg_auto_generated := true |}.

End Models.

(** ** The signal handlers ([research_graph/signals.py]) *)

Module Signals.

Import PyStr Services.

(** A [Researcher] being saved: the columns the ranking reads, the full
    name of its user ([None] for an instance that has no user yet), and
    the list of research interests. *)
Record SavedResearcher : Type := {
  researcher_row : Researcher;
  user : option string;
  research_interests : list string;
}.

(** A [Publication] being saved: the columns the ranking reads, and the
    abstract. *)
Record SavedPublication : Type := {
  publication_row : Publication;
  abstract : option string;
}.

(** [instance.interests_embedding = v] *)
Definition set_interests_embedding (instance : SavedResearcher)
    (v : option (list R)) : SavedResearcher :=
  {| researcher_row :=
       {| researcher_id := researcher_id (researcher_row instance);
          department := department (researcher_row instance);
          interests_embedding := v |};
     user := user instance;
     research_interests := research_interests instance |}.

(** [instance.user.get_full_name()]: reading [user] on an instance without
    user raises [RelatedObjectDoesNotExist], an [AttributeError]. *)
Definition get_full_name (instance : SavedResearcher) : result string :=
  match user instance with
  | Some full_name => Ok full_name
  | None => Raise AttributeError
  end.

(** [instance.abstract_embedding = v] *)
Definition set_abstract_embedding (instance : SavedPublication)
    (v : option (list R)) : SavedPublication :=
  {| publication_row :=
       {| publication_id := publication_id (publication_row instance);
          abstract_embedding := v |};
     abstract := abstract instance |}.

Section WithRuntime.

Context `{rt : Runtime}.

(** A handler works on the instance it is given, which it changes in
    place, and on the state of the services: it ends with a value or an
    exception, the instance as it is then, and the state. *)
Definition Handler (I A : Type) : Type := I → State → result A * I * State.

#[export] Instance Handler_ret {I} : MRet (Handler I) :=
  λ A a instance s, (Ok a, instance, s).

#[export] Instance Handler_bind {I} : MBind (Handler I) :=
  λ A B f m instance s,
  match m instance s with
  | (Ok a, instance', s') => f a instance' s'
  | (Raise e, instance', s') => (Raise e, instance', s')
  end.

(** A call of the services; the instance is not touched. *)
Definition service {I A} (call : M A) : Handler I A := λ instance s,
  let '(r, s') := call s in (r, instance, s').

(** A value or an exception from reading the instance. *)
Definition read {I A} (r : result A) : Handler I A := λ instance s,
  (r, instance, s).

Definition get_instance {I} : Handler I I := λ instance s,
  (Ok instance, instance, s).

(** An assignment to a field of the instance. *)
Definition set_instance {I} (instance' : I) : Handler I unit := λ _ s,
  (Ok tt, instance', s).

(** [try: body except Exception as e: handler e]; what the body assigned
    before it raised stays assigned. *)
Definition try_except_instance {I A} (body : Handler I A)
    (handler : exn → Handler I A) : Handler I A := λ instance s,
  match body instance s with
  | (Ok a, instance', s') => (Ok a, instance', s')
  | (Raise e, instance', s') => handler e instance' s'
  end.

(** [generate_researcher_embedding] ([signals.py], lines 16-50).  The
    messages of the two log calls of the body hold the full name of the
    user, which is read when the call is reached. *)
Definition generate_researcher_embedding : Handler SavedResearcher unit :=
  try_except_instance
    (instance ← get_instance;
     match research_interests instance with
     | _ :: _ =>
         let interests_text := join " " (research_interests instance) in
         embedding ← service (get_embedding interests_text);
         match embedding with
         | Some v =>
             set_instance (set_interests_embedding instance (Some v));;
             full_name ← read (get_full_name instance);
             service
               (logger INFO
                  ("Generated embedding for Researcher: " +:+ full_name))
         | None =>
             full_name ← read (get_full_name instance);
             service
               (logger WARNING
                  ("Failed to generate embedding for Researcher: "
                   +:+ full_name))
         end
     | [] => set_instance (set_interests_embedding instance None)
     end)
    (λ e, service (logger ERROR "Error generating Researcher embedding")).

(** [generate_publication_embedding] ([signals.py], lines 53-84) *)
Definition generate_publication_embedding (instance : SavedPublication)
  : M SavedPublication :=
  try_except
    (match abstract instance with
     | Some text =>
         if truthy text && truthy (strip text) then
           embedding ← get_embedding text;
           match embedding with
           | Some v =>
               logger INFO "Generated embedding for Publication";;
               mret (set_abstract_embedding instance (Some v))
           | None =>
               logger WARNING "Failed to generate embedding for Publication";;
               mret instance
           end
         else mret (set_abstract_embedding instance None)
     | None => mret (set_abstract_embedding instance None)
     end)
    (λ e, logger ERROR "Error generating Publication embedding";;
          mret instance).

End WithRuntime.

(** A researcher with a stored vector whose interests are blank strings,
    as the API creates it: without user. *)
Definition blank_interests : SavedResearcher :=
  {| researcher_row := bob; user := None; research_interests := [" "; ""] |}.

(** The same researcher with a user. *)
Definition blank_interests_of_user : SavedResearcher :=
  {| researcher_row := bob; user := Some "Ada Lovelace";
     research_interests := [" "; ""] |}.

(** A researcher without stored vector and without user, with an
    interest. *)
Definition new_researcher : SavedResearcher :=
  {| researcher_row := carol; user := None;
     research_interests := ["oceanography"] |}.

(** A publication with a stored vector and an abstract. *)
Definition ocean_paper : SavedPublication :=
  {| publication_row :=
       {| publication_id := 1; abstract_embedding := Some [1%R; 0%R] |};
     abstract := Some "ocean acidification" |}.

End Signals.

(** ** The collaboration graph ([research_graph/tasks.py]) *)

Module Tasks.

(** A row of [Authorship] with the date of its publication (the query
    selects the publication along). *)
Record Authorship : Type := {
  researcher : nat;
  publication : nat;
  publication_date : option nat;
}.

(** A value of the dict [collaboration_updates]. *)
Record Edge : Type := {
  strength : Z;
  last_date : option nat;
}.

(** [tuple(sorted([researcher1.id, researcher2.id]))] *)
Definition edge_key (r1 r2 : nat) : nat * nat := (r1 `min` r2, r1 `max` r2).

(** [Authorship.objects.filter(publication=publication)
       .exclude(researcher=researcher1)] *)
Definition co_authors (authorships : list Authorship) (authorship : Authorship)
  : list Authorship :=
  filter (λ other, publication other = publication authorship
                   ∧ researcher other ≠ researcher authorship) authorships.

(** The body of the inner loop ([tasks.py], lines 108-121). *)
Definition count_edge (date : option nat)
    (collaboration_updates : gmap (nat * nat) Edge) (key : nat * nat)
  : gmap (nat * nat) Edge :=
  let collaboration_updates :=
    match collaboration_updates !! key with
    | None => <[key := {| strength := 0; last_date := date |}]>
                collaboration_updates
    | Some _ => collaboration_updates
    end in
  let collaboration_updates :=
    alter (λ e, {| strength := strength e + 1; last_date := last_date e |})
      key collaboration_updates in
  match date with
  | Some d =>
      alter (λ e, {| strength := strength e; last_date := Some d |})
        key collaboration_updates
  | None => collaboration_updates
  end.

(** The dict built by the two loops of [recalculate_collaboration_graph]
    ([tasks.py], lines 96-121). *)
Definition collaboration_updates (authorships : list Authorship)
  : gmap (nat * nat) Edge :=
  fold_left
    (λ updates authorship,
       fold_left
         (λ updates co_authorship,
            count_edge (publication_date authorship) updates
              (edge_key (researcher authorship) (researcher co_authorship)))
         (co_authors authorships authorship) updates)
    authorships ∅.

(** The strength recorded for a pair, 0 when the pair has no entry. *)
Definition strength_of (updates : gmap (nat * nat) Edge) (key : nat * nat)
  : Z :=
  match updates !! key with
  | Some e => strength e
  | None => 0
  end.

(** The number of pairs of rows (x, y) on one publication with x by [a]
    and y by [b]; with one row per researcher and publication, the number
    of publications the two wrote together. *)
Definition joint_rows (authorships : list Authorship) (a b : nat) : nat :=
  sum_list
    ((λ x, length (filter (λ y, publication y = publication x
                                ∧ researcher x = a ∧ researcher y = b)
                     authorships)) <$> authorships).

(** The visits of the inner loop body in the order of the two loops: the
    date of the outer row's publication and the edge key. *)
Definition visits (authorships : list Authorship)
  : list (option nat * (nat * nat)) :=
  authorship ← authorships;
  (λ co_authorship,
     (publication_date authorship,
      edge_key (researcher authorship) (researcher co_authorship)))
    <$> co_authors authorships authorship.

(** The dates of the visits of one key, in order. *)
Definition dates_of (key : nat * nat)
    (vs : list (option nat * (nat * nat))) : list (option nat) :=
  fst <$> filter (λ v, v.2 = key) vs.

(** The last date of a list that is not [None], if there is one. *)
Definition last_given (dates : list (option nat)) : option nat :=
  fold_left (λ acc d, match d with Some _ => d | None => acc end) dates None.

(** The entry of a key after one more visit from a row with [date]. *)
Definition visit (entry : option Edge) (date : option nat) : option Edge :=
  Some {| strength := from_option strength 0%Z entry + 1;
          last_date := match date with
                       | Some _ => date
                       | None => entry ≫= last_date
                       end |}.

(** Two researchers with two joint publications, one of them with a third
    author. *)
Definition sample_authorships : list Authorship :=
  [ {| researcher := 1; publication := 10; publication_date := Some 2021 |};
    {| researcher := 2; publication := 10; publication_date := Some 2021 |};
    {| researcher := 1; publication := 11; publication_date := None |};
    {| researcher := 2; publication := 11; publication_date := None |};
    {| researcher := 3; publication := 11; publication_date := None |} ].

End Tasks.

(** * Properties *)

(** ** Python floats *)

Module PyFloatFacts.
Import PyFloat.
Local Open Scope Z_scope.

Lemma round_half_even_cases (n d : Z) :
  0 < d →
  ∃ q r, n = d * q + r ∧ 0 <= r < d
         ∧ (round_half_even n d = q ∧ (2 * r < d ∨ 2 * r = d ∧ Z.even q = true)
            ∨ round_half_even n d = q + 1
              ∧ (d < 2 * r ∨ 2 * r = d ∧ Z.even q = false)).
Proof.
  intros Hd. exists (n / d), (n mod d).
  split; [apply Z.div_mod; lia|]. split; [apply Z.mod_pos_bound; lia|].
  unfold round_half_even.
  destruct (Z.compare_spec (2 * (n mod d)) d) as [H|H|H].
  - destruct (Z.even (n / d)) eqn:He; [left|right]; auto.
  - left. auto.
  - right. auto.
Qed.

Lemma round_half_even_lower (n d c : Z) :
  0 < d → c * d <= n → c <= round_half_even n d.
Proof.
  intros Hd Hc.
  destruct (round_half_even_cases n d Hd) as (q & r & Hn & Hr & H).
  assert (c <= q) by nia.
  destruct H as [[-> _]|[-> _]]; lia.
Qed.

Lemma round_half_even_upper (n d c : Z) :
  0 < d → n <= c * d → round_half_even n d <= c.
Proof.
  intros Hd Hc.
  destruct (round_half_even_cases n d Hd) as (q & r & Hn & Hr & H).
  destruct H as [[-> _]|[-> H]]; [nia|].
  assert (q < c) by nia. lia.
Qed.

Lemma round_half_even_mono (n n' d : Z) :
  0 < d → n <= n' → round_half_even n d <= round_half_even n' d.
Proof.
  intros Hd Hn.
  destruct (round_half_even_cases n d Hd) as (q & r & En & Hr & H).
  destruct (round_half_even_cases n' d Hd) as (q' & r' & En' & Hr' & H').
  assert (q <= q') by nia.
  destruct (Z.eq_dec q q') as [<-|Hne].
  - assert (r <= r') by lia.
    destruct H as [[-> H]|[-> H]], H' as [[-> H']|[-> H']]; try lia.
    destruct H as [H|[H He]], H' as [H'|[H' He']]; try lia. congruence.
  - destruct H as [[-> _]|[-> _]], H' as [[-> _]|[-> _]]; lia.
Qed.

Lemma ldexp_neg (m j : Z) : 0 <= j → ldexp m (- j) = m # Z.to_pos (2 ^ j).
Proof.
  intros Hj. destruct j as [|n|n]; [reflexivity| |lia].
  change (- Z.pos n) with (Z.neg n). unfold ldexp. f_equal.
  change 2 with (Z.pos 2). by rewrite <- Pos2Z.inj_pow.
Qed.

Lemma ldexp_le (m m' j j' : Z) :
  0 <= j → 0 <= j' →
  (ldexp m (- j) <= ldexp m' (- j'))%Q ↔ m * 2 ^ j' <= m' * 2 ^ j.
Proof.
  intros Hj Hj'. rewrite !ldexp_neg by done. unfold Qle. simpl.
  rewrite !Z2Pos.id by (apply Z.pow_pos_nonneg; lia). done.
Qed.

Lemma ldexp_pos (m j : Z) : 0 <= j → (0 < ldexp m (- j))%Q ↔ 0 < m.
Proof.
  intros Hj. rewrite ldexp_neg by done. unfold Qlt. simpl. lia.
Qed.

(** The exponent of a quotient that is at most 1. *)
Lemma exponent_spec (a b : Z) :
  0 < a <= b →
  ∃ k, exponent a b = - k ∧ 0 <= k ∧ b <= a * 2 ^ k < 2 * b.
Proof.
  intros [Ha Hab].
  pose proof (Z.log2_spec a Ha) as [Ha1 Ha2].
  pose proof (Z.log2_spec b ltac:(lia)) as [Hb1 Hb2].
  pose proof (Z.log2_le_mono a b Hab) as Hl.
  pose proof (Z.log2_nonneg a) as Hla.
  set (la := Z.log2 a) in *. set (lb := Z.log2 b) in *.
  unfold exponent. fold la lb.
  replace (Z.max 0 (- (la - lb))) with (lb - la) by lia.
  replace (Z.max 0 (la - lb)) with 0 by lia.
  assert (2 ^ lb = 2 ^ la * 2 ^ (lb - la)) as Hpow.
  { rewrite <- Z.pow_add_r by lia. f_equal. lia. }
  assert (0 < 2 ^ (lb - la)) as Hs by (apply Z.pow_pos_nonneg; lia).
  rewrite !Z.pow_succ_r in * by lia.
  rewrite Z.pow_0_r, Z.mul_1_r.
  destruct (Z.ltb_spec (a * 2 ^ (lb - la)) b) as [Hlt|Hge].
  - exists (lb - la + 1). split; [lia|]. split; [lia|].
    rewrite Z.pow_add_r, Z.pow_1_r by lia. nia.
  - exists (lb - la). split; [lia|]. split; [lia|]. nia.
Qed.

(** The significand and the exponent of a rounded quotient at most 1. *)
Lemma true_divide_spec (a b : Z) :
  0 < a <= b →
  ∃ k m, 0 <= k ∧ b <= a * 2 ^ k < 2 * b
         ∧ m = round_half_even (a * 2 ^ (k + 52)) b
         ∧ 2 ^ 52 <= m <= 2 ^ (k + 52) ∧ m <= 2 ^ 53
         ∧ true_divide a b = ldexp m (- (k + 52)).
Proof.
  intros Hab. destruct (exponent_spec a b Hab) as (k & He & Hk & Hlo & Hhi).
  exists k, (round_half_even (a * 2 ^ (k + 52)) b).
  assert (a * 2 ^ (k + 52) = a * 2 ^ k * 2 ^ 52) as Hn.
  { rewrite Z.pow_add_r by lia. ring. }
  assert (0 < 2 ^ k) as Hpk by (apply Z.pow_pos_nonneg; lia).
  split; [done|]. split; [done|]. split; [done|]. split; [split|split].
  - apply round_half_even_lower; [lia|]. rewrite Hn. nia.
  - apply round_half_even_upper; [lia|]. rewrite Hn.
    rewrite Z.pow_add_r by lia. nia.
  - apply round_half_even_upper; [lia|]. rewrite Hn.
    change (2 ^ 53) with (2 * 2 ^ 52). nia.
  - unfold true_divide. rewrite (proj2 (Z.eqb_neq a 0)) by lia.
    rewrite He.
    replace (Z.max 0 (- (- k - 52))) with (k + 52) by lia.
    replace (Z.max 0 (- k - 52)) with 0 by lia.
    rewrite Z.pow_0_r, Z.mul_1_r. f_equal. lia.
Qed.

Lemma true_divide_zero (b : Z) : true_divide 0 b = 0%Q.
Proof. reflexivity. Qed.

Lemma true_divide_pos (a b : Z) : 0 < a <= b → (0 < true_divide a b)%Q.
Proof.
  intros Hab.
  destruct (true_divide_spec a b Hab) as (k & m & Hk & _ & _ & Hm & _ & ->).
  apply ldexp_pos; [lia|]. pose proof (Z.pow_pos_nonneg 2 52). lia.
Qed.

(** A count that is at most the divisor gives a ratio that is at most 1,
    rounding included. *)
Lemma true_divide_le_1 (a b : Z) : 0 <= a <= b → (true_divide a b <= 1)%Q.
Proof.
  intros [Ha Hab]. destruct (Z.eq_dec a 0) as [->|Hne]; [done|].
  destruct (true_divide_spec a b ltac:(lia))
    as (k & m & Hk & _ & _ & Hm & _ & ->).
  change 1%Q with (ldexp 1 (- 0)). apply ldexp_le; [lia..|].
  rewrite Z.pow_0_r. lia.
Qed.

(** Rounding keeps the order of the quotients. *)
Lemma true_divide_mono (a a' b : Z) :
  0 <= a <= a' → a' <= b → (true_divide a b <= true_divide a' b)%Q.
Proof.
  intros [Ha Haa] Hab. destruct (Z.eq_dec a 0) as [->|Hne].
  - destruct (Z.eq_dec a' 0) as [->|Hne']; [apply Qle_refl|].
    apply Qlt_le_weak, true_divide_pos. lia.
  - destruct (true_divide_spec a b ltac:(lia))
      as (k & m & Hk & Hka & Em & Hm & Hm53 & ->).
    destruct (true_divide_spec a' b ltac:(lia))
      as (k' & m' & Hk' & Hka' & Em' & Hm' & Hm53' & ->).
    apply ldexp_le; [lia..|].
    assert (0 < 2 ^ k) as Hpk by (apply Z.pow_pos_nonneg; lia).
    assert (0 < 2 ^ k') as Hpk' by (apply Z.pow_pos_nonneg; lia).
    assert (k' <= k) as Hkk.
    { destruct (Z.le_gt_cases k' k) as [|Hgt]; [done|]. exfalso.
      assert (2 * 2 ^ k <= 2 ^ k').
      { rewrite <- Z.pow_succ_r by lia. apply Z.pow_le_mono_r; lia. }
      nia. }
    destruct (Z.eq_dec k' k) as [->|Hlt].
    + apply Z.mul_le_mono_nonneg_r; [lia|]. subst m m'.
      apply round_half_even_mono; [lia|].
      apply Z.mul_le_mono_nonneg_r; [|lia]. apply Z.pow_nonneg. lia.
    + assert (2 * 2 ^ (k' + 52) <= 2 ^ (k + 52)).
      { rewrite <- Z.pow_succ_r by lia. apply Z.pow_le_mono_r; lia. }
      assert (0 < 2 ^ (k' + 52)) by (apply Z.pow_pos_nonneg; lia).
      change (2 ^ 53) with (2 * 2 ^ 52) in *. nia.
Qed.

(** 3 / 17 in Python: 0.17647058823529413, above the quotient. *)
Lemma true_divide_3_17 :
  true_divide 3 17 = 6358023003346583 # 36028797018963968
  ∧ (3 # 17 < true_divide 3 17)%Q.
Proof. split; reflexivity. Qed.

End PyFloatFacts.

(** ** Python strings *)

Module PyStrFacts.

Import PyStr.

Lemma truthy_false s : truthy s = false ↔ s = EmptyString.
Proof. destruct s; simpl; split; congruence. Qed.

Lemma append_nil s : EmptyString +:+ s = s.
Proof. reflexivity. Qed.

Lemma append_cons c s1 s2 : String c s1 +:+ s2 = String c (s1 +:+ s2).
Proof. reflexivity. Qed.

Ltac unfold_append := rewrite ?append_cons, ?append_nil.

Lemma append_empty_r s : s +:+ EmptyString = s.
Proof. induction s as [|c s IH]; unfold_append; [done|]. by rewrite IH. Qed.

Lemma append_assoc s1 s2 s3 : (s1 +:+ s2) +:+ s3 = s1 +:+ (s2 +:+ s3).
Proof. induction s1 as [|c s1 IH]; unfold_append; [done|]. by rewrite IH. Qed.

Lemma all_chars_app p s1 s2 :
  all_chars p (s1 +:+ s2) = all_chars p s1 && all_chars p s2.
Proof.
  induction s1 as [|c s1 IH]; unfold_append; simpl; [done|].
  rewrite IH. by rewrite andb_assoc.
Qed.

Lemma map_chars_id f p s :
  (∀ c, p c = true → f c = c) → all_chars p s = true → map_chars f s = s.
Proof.
  intros Hf. induction s as [|c s IH]; simpl; [done|].
  intros [Hc Hs]%andb_true_iff. by rewrite Hf, IH.
Qed.

Lemma all_chars_impl (p q : ascii → bool) s :
  (∀ c, p c = true → q c = true) → all_chars p s = true → all_chars q s = true.
Proof.
  intros Hpq. induction s as [|c s IH]; simpl; [done|].
  intros [Hc Hs]%andb_true_iff. by rewrite Hpq, IH.
Qed.

Lemma all_chars_map p f s :
  (∀ c, p (f c) = true) → all_chars p (map_chars f s) = true.
Proof. intros Hpf. induction s as [|c s IH]; simpl; [done|]. by rewrite Hpf, IH. Qed.

Lemma all_chars_map_inv p f s :
  (∀ c, p c = true → p (f c) = true) →
  all_chars p s = true → all_chars p (map_chars f s) = true.
Proof.
  intros Hpf. induction s as [|c s IH]; simpl; [done|].
  intros [Hc Hs]%andb_true_iff. by rewrite Hpf, IH.
Qed.

(** *** [strip] *)

Lemma lstrip_spaces s : all_chars isspace s = true → lstrip s = EmptyString.
Proof.
  induction s as [|c s IH]; simpl; [done|].
  intros [Hc Hs]%andb_true_iff. rewrite Hc. auto.
Qed.

Lemma rstrip_empty s : rstrip s = EmptyString → all_chars isspace s = true.
Proof.
  induction s as [|c s IH]; simpl; [done|].
  destruct (rstrip s) eqn:Hr; [|discriminate].
  destruct (isspace c); simpl; [auto|discriminate].
Qed.

Lemma lstrip_suffix s : ∃ p, all_chars isspace p = true ∧ s = p +:+ lstrip s.
Proof.
  induction s as [|c s [p [Hp Hs]]]; simpl.
  - by exists EmptyString.
  - destruct (isspace c) eqn:Hc.
    + exists (String c p). unfold_append. simpl. rewrite Hc, Hp.
      split; [done|]. by f_equal.
    + by exists EmptyString.
Qed.

(** [text.strip()] is empty exactly for the texts made of white space
    only (the empty text among them). *)
Lemma strip_empty_iff s :
  strip s = EmptyString ↔ all_chars isspace s = true.
Proof.
  unfold strip. split.
  - intros H%rstrip_empty.
    destruct (lstrip_suffix s) as [p [Hp Hs]].
    rewrite Hs, all_chars_app, Hp, H. done.
  - intros H. by rewrite (lstrip_spaces s H).
Qed.

(** *** [split] and [join] *)

Lemma emit_word w : w ≠ EmptyString → emit w = [w].
Proof. by destruct w. Qed.

Lemma split_from_spaces w s :
  all_chars isspace s = true → split_from w s = emit w.
Proof.
  revert w. induction s as [|c s IH]; intros w; simpl; [done|].
  intros [Hc Hs]%andb_true_iff. rewrite Hc.
  rewrite (IH EmptyString Hs). simpl. by rewrite app_nil_r.
Qed.

Lemma split_from_run w u s :
  all_chars (λ c, negb (isspace c)) u = true →
  split_from w (u +:+ s) = split_from (w +:+ u) s.
Proof.
  revert w. induction u as [|c u IH]; intros w.
  - intros _. by rewrite append_empty_r.
  - simpl. intros [Hc Hu]%andb_true_iff. apply negb_true_iff in Hc.
    unfold_append. simpl. rewrite Hc, (IH _ Hu), append_assoc. done.
Qed.

Lemma split_from_space w c s :
  isspace c = true →
  split_from w (String c s) = emit w ++ split_from EmptyString s.
Proof. intros Hc. simpl. by rewrite Hc. Qed.

Lemma join_cons2 sep w w' ws :
  join sep (w :: w' :: ws) = w +:+ sep +:+ join sep (w' :: ws).
Proof. reflexivity. Qed.

Lemma split_join ws :
  Forall word ws → split (join " " ws) = ws.
Proof.
  unfold split. induction 1 as [|w ws [Hne Hw] Hws IH]; [done|].
  destruct ws as [|w' ws].
  - simpl. rewrite <- (append_empty_r w) at 1.
    rewrite (split_from_run _ _ _ Hw). unfold_append. simpl.
    by apply emit_word.
  - rewrite join_cons2, (split_from_run _ _ _ Hw). unfold_append.
    rewrite split_from_space by reflexivity.
    rewrite IH. by rewrite (emit_word _ Hne).
Qed.

(** Every word [split] returns is a non-empty run of non-space characters
    that satisfy whatever predicate all characters of the text satisfy. *)
Lemma split_from_words (p : ascii → bool) w s :
  all_chars p w = true → all_chars (λ c, negb (isspace c)) w = true →
  all_chars p s = true →
  Forall (λ x, word x ∧ all_chars p x = true) (split_from w s).
Proof.
  revert w. induction s as [|c s IH]; intros w Hpw Hw; simpl.
  - intros _. destruct w; simpl; [constructor|].
    repeat constructor; done.
  - intros [Hc Hs]%andb_true_iff. destruct (isspace c) eqn:Hsp.
    + apply Forall_app. split; [|by apply IH].
      destruct w; simpl; [constructor|]. repeat constructor; done.
    + apply IH; [| |done]; rewrite all_chars_app; simpl.
      * by rewrite Hpw, Hc.
      * by rewrite Hw, Hsp.
Qed.

Lemma split_words (p : ascii → bool) s :
  all_chars p s = true →
  Forall (λ x, word x ∧ all_chars p x = true) (split s).
Proof. intros. by apply split_from_words. Qed.

Lemma all_chars_join (p : ascii → bool) ws :
  p " "%char = true → Forall (λ x, all_chars p x = true) ws →
  all_chars p (join " " ws) = true.
Proof.
  intros Hsp. induction 1 as [|w ws Hw Hws IH]; [done|].
  destruct ws as [|w' ws]; [done|].
  rewrite join_cons2, !all_chars_app, Hw, IH. simpl. by rewrite Hsp.
Qed.

Lemma split_spaces s : all_chars isspace s = true → split s = [].
Proof. intros H. unfold split. by rewrite split_from_spaces. Qed.

(** The guard [not text or not text.strip()] holds exactly on the texts
    made of white space only. *)
Lemma blank_iff text :
  negb (truthy text) || negb (truthy (strip text)) = true
  ↔ all_chars isspace text = true.
Proof.
  rewrite orb_true_iff, !negb_true_iff, !truthy_false, strip_empty_iff.
  split; [|auto]. intros [->|H]; done.
Qed.

Lemma blank_strip text :
  negb (truthy text) || negb (truthy (strip text)) = true
  ↔ strip text = EmptyString.
Proof. by rewrite blank_iff, strip_empty_iff. Qed.

End PyStrFacts.

(** ** The classifier *)

Module SDGClassifierFacts.

Import PyStr PyStrFacts PyFloat PyFloatFacts SDGClassifier.

(** *** Normalisation *)

Lemma in_class_sub_special c : in_class (sub_special c) = true.
Proof.
  unfold sub_special. destruct (in_class c) eqn:Hc; [done|]. reflexivity.
Qed.

Lemma sub_special_fixed c : in_class c = true → sub_special c = c.
Proof. unfold sub_special. by intros ->. Qed.

Lemma lower_char_fixed c : in_class c = true → lower_char c = c.
Proof.
  destruct c as [[] [] [] [] [] [] [] []]; vm_compute; congruence.
Qed.

Lemma normalize_words text :
  ∃ ws, _normalize_text text = join " " ws
        ∧ Forall (λ w, word w ∧ all_chars in_class w = true) ws.
Proof.
  unfold _normalize_text.
  exists (split (map_chars sub_special (lower text))). split; [done|].
  apply split_words, all_chars_map, in_class_sub_special.
Qed.

Lemma normalize_in_class text : all_chars in_class (_normalize_text text) = true.
Proof.
  destruct (normalize_words text) as [ws [-> Hws]].
  apply all_chars_join; [reflexivity|].
  eapply Forall_impl; [exact Hws|]. by intros w [_ ?].
Qed.

(** The words of a normalised text are the words it was joined from. *)
Lemma split_normalize text :
  _normalize_text text = join " " (split (_normalize_text text)).
Proof.
  destruct (normalize_words text) as [ws [-> Hws]].
  rewrite split_join; [done|].
  eapply Forall_impl; [exact Hws|]. by intros w [? _].
Qed.

(** *** White-space-only texts *)

Lemma isspace_in_class c : isspace c = true → in_class c = true.
Proof. unfold in_class. intros ->. by rewrite orb_true_r. Qed.

Lemma isspace_lower c : isspace c = true → isspace (lower_char c) = true.
Proof. intros H. by rewrite lower_char_fixed; [|apply isspace_in_class]. Qed.

Lemma isspace_sub_special c : isspace c = true → isspace (sub_special c) = true.
Proof. intros H. by rewrite sub_special_fixed; [|apply isspace_in_class]. Qed.

Lemma normalize_spaces text :
  all_chars isspace text = true → _normalize_text text = EmptyString.
Proof.
  intros H. unfold _normalize_text. rewrite split_spaces; [done|].
  apply all_chars_map_inv; [apply isspace_sub_special|].
  apply all_chars_map_inv; [apply isspace_lower|done].
Qed.

(** *** The loop of [classify_text] is a filter *)

Lemma classify_fold tokens threshold items acc :
  fold_left (classify_step tokens threshold) items acc
  = acc ++ (filter (λ item, passes tokens threshold item) items).*1.
Proof.
  revert acc. induction items as [|[c kws] items IH]; intros acc; simpl.
  - by rewrite app_nil_r.
  - rewrite IH, filter_cons.
    case_decide as Hp; unfold passes in Hp; simpl in Hp;
      destruct (_count_keyword_matches tokens kws =? 0)%Z;
      destruct (Qle_bool _ _); simpl in *; try done.
    by rewrite <- app_assoc.
Qed.

Lemma classify_text_filter text threshold :
  classify_text text threshold
  = if negb (truthy text) || negb (truthy (strip text)) then []
    else (filter (λ item, passes (tokens_of text) threshold item)
            SDG_KEYWORDS).*1.
Proof.
  unfold classify_text. destruct (_ || _); [done|].
  by rewrite classify_fold.
Qed.

(** *** Monotonicity of the test in the threshold *)

Lemma passes_monotone tokens t1 t2 item :
  (t1 <= t2)%Q → passes tokens t2 item = true → passes tokens t1 item = true.
Proof.
  unfold passes. intros Ht [Hm Hle]%andb_true_iff.
  rewrite Hm. simpl. apply Qle_bool_iff. apply Qle_bool_iff in Hle.
  by eapply Qle_trans.
Qed.

(** *** The count of the code and the credits of the specification *)

Lemma forallb_decide {A} (P : A → Prop) `{!∀ x, Decision (P x)} l :
  forallb (λ x, bool_decide (P x)) l = bool_decide (Forall P l).
Proof.
  induction l as [|x l IH]; simpl; [done|].
  rewrite IH. destruct (decide (P x)) as [Hx|Hx].
  - rewrite (bool_decide_eq_true_2 _ Hx). simpl.
    apply bool_decide_ext. rewrite Forall_cons. tauto.
  - rewrite (bool_decide_eq_false_2 _ Hx). simpl. symmetry.
    apply bool_decide_eq_false_2. rewrite Forall_cons. tauto.
Qed.

Lemma existsb_decide {A} (P : A → Prop) `{!∀ x, Decision (P x)} l :
  existsb (λ x, bool_decide (P x)) l = bool_decide (Exists P l).
Proof.
  induction l as [|x l IH]; simpl; [done|].
  - rewrite IH. destruct (decide (P x)) as [Hx|Hx].
    + rewrite (bool_decide_eq_true_2 _ Hx). simpl. symmetry.
      apply bool_decide_eq_true_2. by left.
    + rewrite (bool_decide_eq_false_2 _ Hx). simpl.
      apply bool_decide_ext. rewrite Exists_cons. tauto.
Qed.

Lemma count_keyword_credit T count k :
  lower k = k → (count_keyword T count k == count + spec_credit T k)%Q.
Proof.
  intros Hk. unfold count_keyword, spec_credit. rewrite Hk.
  rewrite forallb_decide, existsb_decide.
  destruct (decide (Forall _ _)) as [Hall|Hall].
  - rewrite (bool_decide_eq_true_2 _ Hall). reflexivity.
  - rewrite (bool_decide_eq_false_2 _ Hall).
    destruct (decide (Exists _ _)) as [Hex|Hex].
    + rewrite (bool_decide_eq_true_2 _ Hex). reflexivity.
    + rewrite (bool_decide_eq_false_2 _ Hex). by rewrite Qplus_0_r.
Qed.

Lemma fold_count_credits T K count :
  Forall (λ k, lower k = k) K →
  (fold_left (count_keyword T) K count == count + spec_credits T K)%Q.
Proof.
  intros HK. revert count. induction HK as [|k K Hk HK IH]; intros count.
  - unfold spec_credits. simpl. by rewrite Qplus_0_r.
  - simpl. rewrite IH. unfold spec_credits. simpl.
    rewrite (count_keyword_credit _ _ _ Hk). by rewrite Qplus_assoc.
Qed.

Lemma spec_credit_nonneg T k : (0 <= spec_credit T k)%Q.
Proof. unfold spec_credit. repeat case_decide; done. Qed.

Lemma spec_credits_nonneg T K : (0 <= spec_credits T K)%Q.
Proof.
  unfold spec_credits. induction K as [|k K IH]; simpl; [done|].
  apply (Qle_trans _ (0 + 0)); [done|].
  apply Qplus_le_compat; [apply spec_credit_nonneg|done].
Qed.

(** On a non-negative rational, [int] is the floor. *)
Lemma int_of_floor q : (0 <= q)%Q → int_of q = Qfloor q.
Proof.
  destruct q as [n d]. unfold Qle, int_of. simpl. intros Hn.
  apply Z.quot_div_nonneg; lia.
Qed.

Lemma int_of_Qeq p q : (0 <= p)%Q → (p == q)%Q → int_of p = int_of q.
Proof.
  intros Hp Hpq. rewrite !int_of_floor; [by rewrite Hpq| by rewrite <- Hpq | done].
Qed.

Lemma count_matches_spec T K :
  Forall (λ k, lower k = k) K → _count_keyword_matches T K = spec_matches T K.
Proof.
  intros HK. unfold _count_keyword_matches, spec_matches.
  symmetry. apply int_of_Qeq; [apply spec_credits_nonneg|].
  by rewrite fold_count_credits, Qplus_0_l.
Qed.

(** *** Facts about the table, checked by evaluation *)

Lemma keywords_lowercase :
  Forall (λ item, Forall (λ k, lower k = k) item.2) SDG_KEYWORDS.
Proof. apply (bool_decide_unpack _). vm_compute. reflexivity. Qed.

Lemma keywords_keys : SDG_KEYWORDS.*1 = choices.
Proof. reflexivity. Qed.

Lemma keywords_lookup c : (c, get_keywords_for_sdg c) ∈ SDG_KEYWORDS.
Proof. destruct c; apply (bool_decide_unpack _); vm_compute; reflexivity. Qed.

Lemma choices_NoDup : NoDup choices.
Proof. apply (bool_decide_unpack _). vm_compute. reflexivity. Qed.

Lemma NoDup_fst_functional {A B} (l : list (A * B)) x y1 y2 :
  NoDup l.*1 → (x, y1) ∈ l → (x, y2) ∈ l → y1 = y2.
Proof.
  induction l as [|[a b] l IH]; simpl; intros Hnd H1 H2.
  - by apply elem_of_nil in H1.
  - apply NoDup_cons in Hnd as [Hnotin Hnd].
    apply elem_of_cons in H1 as [H1|H1]; apply elem_of_cons in H2 as [H2|H2];
      simplify_eq; try done.
    + exfalso. apply Hnotin, list_elem_of_fmap. by exists (a, y2).
    + exfalso. apply Hnotin, list_elem_of_fmap. by exists (a, y1).
    + eauto.
Qed.

Lemma keywords_functional c K :
  (c, K) ∈ SDG_KEYWORDS → K = get_keywords_for_sdg c.
Proof.
  intros H. pose proof (keywords_lookup c) as H'.
  pose proof choices_NoDup as Hnd. rewrite <- keywords_keys in Hnd.
  by eapply NoDup_fst_functional.
Qed.

Lemma get_keywords_lowercase c :
  Forall (λ k, lower k = k) (get_keywords_for_sdg c).
Proof.
  pose proof keywords_lowercase as H. rewrite Forall_forall in H.
  apply (H _ (keywords_lookup c)).
Qed.

(** Membership in the result of [classify_text], for a text that is not
    made of white space only. *)
Lemma elem_of_classify_text text threshold c :
  c ∈ classify_text text threshold
  ↔ all_chars isspace text = false
    ∧ passes (tokens_of text) threshold (c, get_keywords_for_sdg c) = true.
Proof.
  rewrite classify_text_filter.
  destruct (negb (truthy text) || negb (truthy (strip text))) eqn:Hb.
  - apply blank_iff in Hb. rewrite Hb. split; [by intros ?%elem_of_nil|].
    by intros [? _].
  - assert (all_chars isspace text = false) as Hs.
    { destruct (all_chars isspace text) eqn:E; [|done].
      apply blank_iff in E. congruence. }
    rewrite list_elem_of_fmap. split.
    + intros [[c' K] [-> [Hp Hin]%list_elem_of_filter]]. simpl.
      rewrite <- (keywords_functional _ _ Hin). split; [done|].
      by apply Is_true_true.
    + intros [_ Hp]. exists (c, get_keywords_for_sdg c). split; [done|].
      apply list_elem_of_filter. split; [by apply Is_true_true|].
      apply keywords_lookup.
Qed.

Lemma spec_matches_nonneg T K : (0 <= spec_matches T K)%Z.
Proof.
  unfold spec_matches. rewrite int_of_floor by apply spec_credits_nonneg.
  pose proof (spec_credits_nonneg T K) as H.
  apply Qfloor_resp_le in H. exact H.
Qed.

Lemma passes_spec T threshold c :
  passes T threshold (c, get_keywords_for_sdg c) = true
  ↔ (1 <= spec_matches T (get_keywords_for_sdg c))%Z
    ∧ (threshold <= float_ratio T (get_keywords_for_sdg c))%Q.
Proof.
  unfold passes, float_ratio. simpl.
  rewrite (count_matches_spec _ _ (get_keywords_lowercase c)).
  pose proof (spec_matches_nonneg T (get_keywords_for_sdg c)) as Hm.
  rewrite andb_true_iff, negb_true_iff, Z.eqb_neq, Qle_bool_iff.
  split; intros [H1 H2]; (split; [lia|done]).
Qed.

Lemma tokens_of_spaces text :
  all_chars isspace text = true → tokens_of text = ∅.
Proof.
  intros H. unfold tokens_of. by rewrite (normalize_spaces _ H).
Qed.

Lemma spec_matches_no_tokens c :
  spec_matches ∅ (get_keywords_for_sdg c) = 0%Z.
Proof. destruct c; vm_compute; reflexivity. Qed.

(** For a positive threshold the count condition is implied by the ratio
    condition, and the inclusion test is the test of the rounded ratio
    alone. *)
Lemma elem_of_classify_text_positive text threshold c :
  (0 < threshold)%Q →
  c ∈ classify_text text threshold
  ↔ (threshold <= float_ratio (tokens_of text) (get_keywords_for_sdg c))%Q.
Proof.
  intros Ht. rewrite elem_of_classify_text, passes_spec.
  split; [by intros (_ & _ & ?)|]. intros Hr.
  pose proof (spec_matches_nonneg (tokens_of text) (get_keywords_for_sdg c)) as Hm.
  assert (1 <= spec_matches (tokens_of text) (get_keywords_for_sdg c))%Z as H1.
  { destruct (decide (spec_matches (tokens_of text)
                        (get_keywords_for_sdg c) = 0%Z)) as [H0|H0]; [|lia].
    exfalso. unfold float_ratio in Hr. rewrite H0 in Hr.
    apply (Qlt_not_le _ _ Ht). exact Hr. }
  split; [|done].
  destruct (all_chars isspace text) eqn:Hs; [|done].
  rewrite (tokens_of_spaces _ Hs), spec_matches_no_tokens in H1. lia.
Qed.

(** *** Order of the results *)

Lemma choices_goal_sorted : StronglySorted (λ a b, goal a < goal b) choices.
Proof.
  unfold choices. repeat (constructor; [|repeat constructor; simpl; lia]).
  constructor.
Qed.

Lemma classify_text_sublist text threshold :
  classify_text text threshold `sublist_of` choices.
Proof.
  rewrite classify_text_filter. destruct (_ || _).
  - apply sublist_nil_l.
  - rewrite <- keywords_keys. apply fmap_sublist, sublist_filter.
Qed.

Lemma StronglySorted_sublist {A} (R : relation A) l1 l2 :
  l1 `sublist_of` l2 → StronglySorted R l2 → StronglySorted R l1.
Proof.
  induction 1 as [|x l1 l2 Hsub IH|x l1 l2 Hsub IH];
    intros Hs; [done| |].
  - apply StronglySorted_inv in Hs as [Hs Hx]. constructor; [auto|].
    rewrite Forall_forall in Hx |- *. intros y Hy. apply Hx.
    by eapply elem_of_sublist.
  - apply StronglySorted_inv in Hs as [Hs _]. auto.
Qed.

(** [classify_text] lists the detected goals by ascending goal number:
    the insertion order of [SDG_KEYWORDS]. *)
Lemma classify_text_goal_sorted text threshold :
  StronglySorted (λ a b, goal a < goal b) (classify_text text threshold).
Proof.
  eapply StronglySorted_sublist;
    [apply classify_text_sublist|apply choices_goal_sorted].
Qed.

#[local] Instance code_le_total : Total code_le.
Proof. intros a b. unfold code_le. apply total, _. Qed.





#[local] Instance code_le_trans : Transitive code_le.
Proof. intros a b c. unfold code_le. apply transitivity. Qed.

Lemma value_inj a b : value a = value b → a = b.
Proof. destruct a, b; simpl; intros H; first [reflexivity|discriminate H]. Qed.

#[local] Instance code_le_antisymm : AntiSymm (=) code_le.
Proof.
  intros a b Hab Hba. apply value_inj.
  by apply (anti_symm String.le).
Qed.

(** A duplicate-free list sorted by code is determined by its members. *)
Lemma sorted_members_unique (l1 l2 : list SDGChoices) :
  NoDup l1 → NoDup l2 → Sorted code_le l1 → Sorted code_le l2 →
  (∀ c, c ∈ l1 ↔ c ∈ l2) → l1 = l2.
Proof.
  intros Hn1 Hn2 Hs1 Hs2 Hm.
  apply (Sorted_unique code_le); [done|done|].
  by apply NoDup_Permutation.
Qed.



(** *** Examples *)

Example normalize_example :
  _normalize_text "  Climate-Change & CO2:   Impacts!  "
  = "climate-change co2 impacts"%string.
Proof. vm_compute. reflexivity. Qed.

(** "climate" and "climate change" match whole; "climate action" and
    "climate variability" match in part: 1 + 1 + 1/2 + 1/2 = 3. *)
Example count_example :
  _count_keyword_matches (tokens_of "Climate change")
    (get_keywords_for_sdg SDG_13) = 3%Z.
Proof. vm_compute. reflexivity. Qed.

(** One partial match alone ("warming" of "global warming") is truncated
    away. *)
Example half_credit_truncated :
  _count_keyword_matches (tokens_of "warming")
    (get_keywords_for_sdg SDG_13) = 0%Z.
Proof. vm_compute. reflexivity. Qed.

(** *** The claims about the classifier *)

(** C1, as stated, fails at threshold 0: for the text "poverty" (token set
    {poverty}), the phrases of SDG_2 earn no credit, so its ratio 0/17
    reaches the threshold 0, yet [classify_text] leaves SDG_2 out (a
    category without a whole match is skipped before the ratio is
    compared). *)
Lemma classify_text_zero_threshold_counterexample :
  tokens_of "poverty" ≠ ∅
  ∧ (0 <= spec_ratio (tokens_of "poverty") (get_keywords_for_sdg SDG_2))%Q
  ∧ SDG_2 ∉ classify_text "poverty" 0%Q.
Proof.
  split; [|split].
  - intros H.
    assert ("poverty" ∈ tokens_of "poverty") as Hin
      by (apply (bool_decide_unpack _); vm_compute; exact I).
    rewrite H in Hin. by apply not_elem_of_empty in Hin.
  - apply Qle_bool_iff. vm_compute. reflexivity.
  - apply (bool_decide_unpack _). vm_compute. exact I.
Qed.

(** The ratio is compared as Python computes it, rounded to a double: at
    the threshold 0.17647058823529413, the double nearest to 3/17 and
    larger than it, a text with three of the seventeen phrases of SDG_2 is
    given SDG_2, though 3/17 itself is below the threshold. *)
Lemma classify_text_rounding_example :
  classify_text "hunger famine starvation" float_3_17 = [SDG_2]
  ∧ spec_matches (tokens_of "hunger famine starvation")
      (get_keywords_for_sdg SDG_2) = 3%Z
  ∧ length (get_keywords_for_sdg SDG_2) = 17%nat
  ∧ (spec_ratio (tokens_of "hunger famine starvation")
       (get_keywords_for_sdg SDG_2) < float_3_17)%Q
  ∧ (float_3_17 <= float_ratio (tokens_of "hunger famine starvation")
                     (get_keywords_for_sdg SDG_2))%Q.
Proof.
  split; [vm_compute; reflexivity|]. split; [vm_compute; reflexivity|].
  split; [reflexivity|]. split.
  - apply Qlt_alt. vm_compute. reflexivity.
  - apply Qle_bool_iff. vm_compute. reflexivity.
Qed.

(** C1 (amended): for every text and every threshold, a category is in the
    output of [classify_text] if and only if its match count
    m = int(sum of credits) is at least 1 and the ratio m/|K|, rounded to
    the nearest double as Python's division does, is >= threshold, where K
    is the category's keyword-phrase list and a phrase earns credit 1 when
    every one of its words is in the token set, 1/2 when at least one (but
    not every one) is, and 0 otherwise. *)
Theorem classify_text_inclusion text threshold c :
  c ∈ classify_text text threshold
  ↔ (1 <= spec_matches (tokens_of text) (get_keywords_for_sdg c))%Z
    ∧ (threshold <= float_ratio (tokens_of text) (get_keywords_for_sdg c))%Q.
Proof.
  rewrite elem_of_classify_text, passes_spec.
  destruct (all_chars isspace text) eqn:Hs; [|tauto].
  rewrite (tokens_of_spaces _ Hs), spec_matches_no_tokens.
  split; [by intros [? _]|]. intros [? _]. lia.
Qed.

(** C4: threshold monotonicity.  For a fixed text and thresholds t1 < t2,
    every category returned at t2 is returned at t1. *)
Theorem classify_text_threshold_monotone text t1 t2 :
  (t1 < t2)%Q → classify_text text t2 ⊆ classify_text text t1.
Proof.
  intros Ht c. rewrite !elem_of_classify_text. intros [Hs Hp].
  split; [done|]. eapply passes_monotone; [|exact Hp]. by apply Qlt_le_weak.
Qed.

Lemma classify_text_threshold_monotone_witness :
  ((1 # 10) < (3 # 10))%Q
  ∧ classify_text "hunger famine starvation crop farming livestock" (3 # 10)
    ⊆ classify_text "hunger famine starvation crop farming livestock" (1 # 10).
Proof.
  split; [reflexivity|].
  apply (classify_text_threshold_monotone _ (1 # 10) (3 # 10)). reflexivity.
Defined.


(** C10: normalisation is idempotent, and a normalised text is a list of
    words of lowercase letters, digits and hyphens joined by single
    spaces. *)
Theorem normalize_text_idempotent text :
  _normalize_text (_normalize_text text) = _normalize_text text
  ∧ ∃ ws, _normalize_text text = join " " ws
          ∧ Forall (λ w, w ≠ EmptyString ∧ all_chars token_char w = true) ws.
Proof.
  split.
  - pose proof (normalize_in_class text) as Hn.
    unfold _normalize_text at 1. unfold lower.
    rewrite (map_chars_id lower_char in_class _ lower_char_fixed Hn).
    rewrite (map_chars_id sub_special in_class _ sub_special_fixed Hn).
    symmetry. apply split_normalize.
  - destruct (normalize_words text) as [ws [Heq Hws]]. exists ws.
    split; [done|]. eapply Forall_impl; [exact Hws|].
    intros w [[Hne Hw] Hc]. split; [done|].
    clear Hne. induction w as [|a w IH]; simpl in *; [done|].
    apply andb_true_iff in Hw as [Ha Hw]. apply andb_true_iff in Hc as [Hca Hc].
    rewrite (IH Hw Hc), andb_true_r.
    unfold in_class in Hca. unfold token_char.
    apply negb_true_iff in Ha. rewrite Ha, orb_false_r in Hca. exact Hca.
Qed.

(** C6: the two public operations do not list the codes in one ascending
    order.  For the abstract below at the default threshold 0.3,
    [classify_text] returns SDG_2 before SDG_10 (the insertion order of
    [SDG_KEYWORDS], ascending goal number), while [classify_publication]
    returns SDG_10 before SDG_2 ([sorted] compares the codes as strings);
    so [classify_publication] is not ascending by goal number, and
    [classify_text] is not ascending by string value. *)
Theorem classify_orders_disagree :
  classify_text order_abstract (3 # 10) = [SDG_2; SDG_10]
  ∧ classify_publication order_title order_abstract (3 # 10) = [SDG_10; SDG_2]
  ∧ goal SDG_2 < goal SDG_10
  ∧ code_le SDG_10 SDG_2 ∧ SDG_10 ≠ SDG_2.
Proof.
  split; [vm_compute; reflexivity|].
  split; [vm_compute; reflexivity|].
  split; [simpl; lia|].
  split; [vm_compute; exact I|discriminate].
Qed.

End SDGClassifierFacts.

(** ** Vectors *)

Module VectorFacts.

Import Services.

Local Open Scope R_scope.

Lemma dot_self_nonneg u : 0 <= dot u u.
Proof. induction u as [|x u IH]; simpl; [lra|]. nra. Qed.

Lemma dot_self_pos u : Exists (λ x, x ≠ 0) u → 0 < dot u u.
Proof.
  induction 1 as [x u Hx|x u _ IH]; simpl.
  - pose proof (dot_self_nonneg u). nra.
  - nra.
Qed.

Lemma cross_term x y p U V :
  0 <= U → 0 <= V → p * p <= U * V →
  2 * (x * y) * p <= x * x * V + y * y * U.
Proof.
  intros HU HV Hp.
  apply Rsqr_incr_0_var; [|nra].
  unfold Rsqr.
  pose proof (Rle_0_sqr (x * x * V - y * y * U)) as Hsq. unfold Rsqr in Hsq.
  pose proof (Rle_0_sqr (x * y)) as Hxy. unfold Rsqr in Hxy.
  pose proof (Rmult_le_compat_l _ _ _ Hxy Hp) as Hm.
  lra.
Qed.

(** The Cauchy-Schwarz inequality. *)
Lemma cauchy_schwarz u v : dot u v * dot u v <= dot u u * dot v v.
Proof.
  revert v. induction u as [|x u IH]; intros [|y v]; simpl; try lra.
  pose proof (dot_self_nonneg u) as HU. pose proof (dot_self_nonneg v) as HV.
  pose proof (cross_term x y _ _ _ HU HV (IH v)) as Hc.
  pose proof (IH v) as Hp. lra.
Qed.

(** The cosine distance of two non-zero vectors lies in [0, 2]. *)
Lemma cosine_range u v :
  0 < dot u u → 0 < dot v v → 0 <= cosine u v <= 2.
Proof.
  intros Hu Hv. unfold cosine.
  set (n := sqrt (dot u u * dot v v)).
  assert (0 < n) as Hn by (apply sqrt_lt_R0; nra).
  assert (n * n = dot u u * dot v v) as Hnn by (apply sqrt_sqrt; nra).
  pose proof (cauchy_schwarz u v) as Hcs. rewrite <- Hnn in Hcs.
  assert (- n <= dot u v <= n) as [Hlo Hhi] by (split; nra).
  assert (-1 <= dot u v / n <= 1) as [H1 H2].
  { split; apply (Rmult_le_reg_r n); try done;
      unfold Rdiv; rewrite Rmult_assoc, Rinv_l; lra. }
  lra.
Qed.

Lemma dot_scale_r k u v : dot u (scale k v) = k * dot u v.
Proof.
  revert v. induction u as [|x u IH]; intros [|y v]; try (simpl; lra).
  change (scale k (y :: v)) with ((k * y) :: scale k v).
  simpl. rewrite IH. lra.
Qed.

Lemma dot_scale_l k u v : dot (scale k u) v = k * dot u v.
Proof.
  revert v. induction u as [|x u IH]; intros [|y v]; try (simpl; lra).
  change (scale k (x :: u)) with ((k * x) :: scale k u).
  simpl. rewrite IH. lra.
Qed.

Lemma cosine_orthogonal u v : dot u v = 0 → cosine u v = 1.
Proof. intros H. unfold cosine. rewrite H. unfold Rdiv. lra. Qed.

Lemma cosine_same_direction k u :
  0 < k → 0 < dot u u → cosine u (scale k u) = 0.
Proof.
  intros Hk Hu. unfold cosine. rewrite dot_scale_r, dot_scale_l, dot_scale_r.
  replace (dot u u * (k * (k * dot u u)))
    with ((k * dot u u) * (k * dot u u)) by lra.
  rewrite sqrt_square by nra. field. nra.
Qed.

Lemma cosine_opposite_direction k u :
  k < 0 → 0 < dot u u → cosine u (scale k u) = 2.
Proof.
  intros Hk Hu. unfold cosine. rewrite dot_scale_r, dot_scale_l, dot_scale_r.
  replace (dot u u * (k * (k * dot u u)))
    with ((- k * dot u u) * (- k * dot u u)) by lra.
  rewrite sqrt_square by nra. field. nra.
Qed.

(** The clamp [max(0.0, min(1.0, x))] leaves a value of [0, 1] alone. *)
Lemma clamp_unit x : 0 <= x <= 1 → py_max 0 (py_min 1 x) = x.
Proof.
  intros [H0 H1]. unfold py_max, py_min.
  destruct (Rlt_dec x 1); destruct (Rlt_dec 0 _); lra.
Qed.

Lemma length_scale k u : length (scale k u) = length u.
Proof. unfold scale. apply length_fmap. Qed.

End VectorFacts.

(** ** The services *)

Module ServicesFacts.

Import PyStr PyStrFacts SDGClassifier SDGClassifierFacts Services VectorFacts.

Ltac run :=
  unfold mbind, M_bind, mret, M_ret, try_except, lift, get_state, logger,
    set_embedding_model, np_random_seed, np_random_randn in *;
  simpl in *.

(** *** The ranking query *)

Lemma annotate_ok {A} (vector : A → option (list R)) q rows l :
  annotate vector q rows = Ok l → Forall (annotated vector q rows) l.
Proof.
  revert l. induction rows as [|row rows IH]; simpl; intros l H.
  - injection H as <-. constructor.
  - assert (∀ l', Forall (annotated vector q rows) l' →
                  Forall (annotated vector q (row :: rows)) l') as Hweak.
    { intros l' Hl'. eapply Forall_impl; [exact Hl'|].
      intros x [Hx Hv]. split; [by right|done]. }
    destruct (vector row) as [v|] eqn:Hv; [|by apply Hweak, IH].
    unfold pg_cosine_distance in H.
    destruct (length v =? length q)%nat eqn:Hlen; [|done].
    destruct (annotate vector q rows) as [rest|] eqn:Hrest; [|done].
    injection H as <-. constructor; [|by apply Hweak, IH].
    split; [by left|]. exists v. apply Nat.eqb_eq in Hlen. done.
Qed.

Lemma annotate_mismatch {A} (vector : A → option (list R)) q rows row v :
  row ∈ rows → vector row = Some v → length v ≠ length q →
  annotate vector q rows = Raise DataError.
Proof.
  intros Hin Hv Hlen. induction rows as [|row' rows IH]; simpl.
  - by apply elem_of_nil in Hin.
  - apply elem_of_cons in Hin as [<-|Hin].
    + rewrite Hv. unfold pg_cosine_distance.
      apply Nat.eqb_neq in Hlen. by rewrite Hlen.
    + rewrite (IH Hin). destruct (vector row'); [|done].
      unfold pg_cosine_distance. by destruct (_ =? _)%nat.
Qed.

Lemma ranked_ok {A} (vector : A → option (list R)) q rows top_k l :
  ranked vector q rows top_k = Ok l → Forall (annotated vector q rows) l.
Proof.
  unfold ranked. destruct (top_k <? 0)%Z; [done|].
  destruct (top_k =? 0)%Z; [intros [= <-]; constructor|].
  destruct (annotate vector q rows) as [l'|] eqn:Ha; [|done].
  intros [= <-]. apply annotate_ok in Ha.
  rewrite Forall_forall in Ha |- *. intros x Hx. apply Ha.
  pose proof (sublist_take
                (merge_sort (λ x y : A * float8, float8_le x.2 y.2) l')
                (Z.to_nat top_k)) as Hsub.
  apply (elem_of_sublist _ _ _ Hx) in Hsub.
  by rewrite merge_sort_Permutation in Hsub.
Qed.

(** With [top_k] zero the query is not sent: no distance is computed, and
    no vector of another dimension is met. *)
Lemma ranked_zero {A} (vector : A → option (list R)) q rows :
  ranked vector q rows 0 = Ok [].
Proof. reflexivity. Qed.

Lemma ranked_mismatch {A} (vector : A → option (list R)) q rows top_k row v :
  top_k ≠ 0%Z →
  row ∈ rows → vector row = Some v → length v ≠ length q →
  ∃ e, ranked vector q rows top_k = Raise e.
Proof.
  intros Hk Hin Hv Hlen. unfold ranked. destruct (top_k <? 0)%Z; [eauto|].
  apply Z.eqb_neq in Hk. rewrite Hk.
  rewrite (annotate_mismatch _ _ _ _ _ Hin Hv Hlen). eauto.
Qed.

(** The successful query: the rows with a vector, by ascending distance,
    cut to the first [top_k]. *)
Lemma ranked_rows {A} (vector : A → option (list R)) q rows top_k l :
  (0 < top_k)%Z → annotate vector q rows = Ok l →
  ranked vector q rows top_k
  = Ok (take (Z.to_nat top_k)
          (merge_sort (λ x y : A * float8, float8_le x.2 y.2) l)).
Proof.
  intros Hk Hl. unfold ranked.
  rewrite (proj2 (Z.ltb_ge top_k 0)) by lia.
  rewrite (proj2 (Z.eqb_neq top_k 0)) by lia. by rewrite Hl.
Qed.

Lemma cosine_distance_nonzero u v :
  Exists (λ x, x ≠ 0%R) u → Exists (λ x, x ≠ 0%R) v →
  cosine_distance u v = Num (cosine u v).
Proof.
  intros Hu%dot_self_pos Hv%dot_self_pos. unfold cosine_distance.
  destruct (Req_dec_T _ _) as [H0|_]; [|done]. nra.
Qed.

Lemma cosine_distance_zero_l u v :
  Forall (λ x, x = 0%R) u → cosine_distance u v = NaN.
Proof.
  intros Hu. unfold cosine_distance.
  assert (dot u u = 0%R) as ->.
  { induction Hu as [|x u -> _ IH]; simpl; [done|]. rewrite IH. lra. }
  destruct (Req_dec_T _ _) as [_|H]; [done|]. lra.
Qed.

Section WithRuntime.

Context `{rt : Runtime}.

(** *** [get_embedding] *)

Lemma get_embedding_blank text s :
  strip text = EmptyString → get_embedding text s = (Ok None, s).
Proof.
  intros H%blank_strip. unfold get_embedding. by rewrite H.
Qed.

(** [get_embedding_model] returns, and leaves the tables alone. *)
Lemma get_embedding_model_ok s :
  ∃ m s', get_embedding_model s = (Ok m, s')
          ∧ researchers s' = researchers s
          ∧ publications s' = publications s.
Proof.
  unfold get_embedding_model. run.
  destruct (_embedding_model s); [destruct load_model| |]; run; eauto 6.
Qed.

(** [get_embedding] catches whatever its body raises, and leaves the
    tables alone. *)
Lemma get_embedding_ok text s :
  ∃ v s', get_embedding text s = (Ok v, s')
          ∧ researchers s' = researchers s
          ∧ publications s' = publications s.
Proof.
  unfold get_embedding. destruct (_ || _); [run; eauto 6|].
  destruct (get_embedding_model_ok s) as [m [s1 [Hm [Hr Hp]]]]. run.
  rewrite Hm. destruct m as [m|].
  - destruct (encode m text); simpl; eauto 6.
  - destruct (randn EMBEDDING_DIMENSION _); simpl; eauto 6.
Qed.

Lemma get_embedding_model_unavailable s :
  unavailable s →
  ∃ s', get_embedding_model s = (Ok None, s')
        ∧ _embedding_model s' = LoadFailed.
Proof.
  unfold unavailable, get_embedding_model. run.
  destruct (_embedding_model s) eqn:Hh; [|done|].
  - intros ->. run. eauto.
  - intros _. eauto.
Qed.

(** With the backend unavailable, the result is the fallback vector of the
    text whatever the state of the generator was, and the backend stays
    unavailable. *)
Lemma get_embedding_fallback text s :
  strip text ≠ EmptyString → unavailable s →
  ∃ s', get_embedding text s = (Ok (Some (spec_fallback text)), s')
        ∧ unavailable s'.
Proof.
  intros Hne Hs. unfold get_embedding.
  destruct (negb (truthy text) || negb (truthy (strip text))) eqn:Hb.
  { by apply blank_strip in Hb. }
  destruct (get_embedding_model_unavailable s Hs) as [s1 [Hm Hs1]].
  run. rewrite Hm. unfold spec_fallback, norm, EMBEDDING_DIMENSION.
  destruct (randn 384 (seed (hash text mod 2 ^ 32))) as [sample g] eqn:Hr.
  simpl. eexists. split; [reflexivity|].
  unfold unavailable. simpl. by rewrite Hs1.
Qed.

(** *** The ranking operations, case by case *)

Lemma find_supervisor_match_cases thesis_abstract department top_k s :
  ∃ v s1,
    get_embedding thesis_abstract s = (Ok v, s1)
    ∧ researchers s1 = researchers s
    ∧ find_supervisor_match thesis_abstract department top_k s
      = match v with
        | None =>
            (Ok [], (logger WARNING
               "Failed to generate embedding for thesis abstract" s1).2)
        | Some q =>
            match ranked interests_embedding q
                    (filter_department department (researchers s1)) top_k with
            | Ok rows =>
                (Ok ((λ row : Researcher * float8,
                        (row.1, similarity_score row.2)) <$> rows),
                 (logger INFO
                    "Found supervisor matches for thesis abstract" s1).2)
            | Raise e =>
                (Ok [], (logger ERROR "Error finding supervisor matches" s1).2)
            end
        end.
Proof.
  destruct (get_embedding_ok thesis_abstract s) as (v & s1 & Hg & Hr & Hp).
  exists v, s1. split; [done|]. split; [done|].
  unfold find_supervisor_match. run. rewrite Hg.
  destruct v as [q|]; simpl; [|reflexivity].
  destruct (ranked _ _ _ _); reflexivity.
Qed.

Lemma find_aligned_researchers_cases grant_description department top_k s :
  ∃ v s1,
    get_embedding grant_description s = (Ok v, s1)
    ∧ researchers s1 = researchers s
    ∧ find_aligned_researchers grant_description department top_k s
      = match v with
        | None =>
            (Ok [], (logger WARNING
               "Failed to generate embedding for grant description" s1).2)
        | Some q =>
            match ranked interests_embedding q
                    (filter_department department (researchers s1)) top_k with
            | Ok rows =>
                (Ok ((λ row : Researcher * float8,
                        (row.1, similarity_score row.2)) <$> rows),
                 (logger INFO "Found researchers aligned with grant" s1).2)
            | Raise e =>
                (Ok [], (logger ERROR "Error finding aligned researchers" s1).2)
            end
        end.
Proof.
  destruct (get_embedding_ok grant_description s) as (v & s1 & Hg & Hr & Hp).
  exists v, s1. split; [done|]. split; [done|].
  unfold find_aligned_researchers. run. rewrite Hg.
  destruct v as [q|]; simpl; [|reflexivity].
  destruct (ranked _ _ _ _); reflexivity.
Qed.

Lemma find_thesis_matches_cases researcher top_k s :
  find_thesis_matches researcher top_k s
  = match has_vector (interests_embedding researcher) with
    | None => (Ok [], (logger WARNING "Researcher has no embedding" s).2)
    | Some q =>
        match ranked abstract_embedding q (publications s) top_k with
        | Ok rows =>
            (Ok ((λ row : Publication * float8,
                    (row.1, similarity_score row.2)) <$> rows),
             (logger INFO
                "Found publications matching researcher interests" s).2)
        | Raise e =>
            (Ok [], (logger ERROR "Error finding publication matches" s).2)
        end
    end.
Proof.
  unfold find_thesis_matches. run.
  destruct (has_vector _) as [q|]; simpl; [|reflexivity].
  destruct (ranked _ _ _ _); reflexivity.
Qed.

(** *** [score_researcher_for_grant], case by case *)

(** Line 339 raises before the vectors are compared: whenever both
    vectors are there, the outer handler logs the error and the score is
    0. *)
Lemma score_with_vectors researcher grant_description s u v s1 :
  has_vector (interests_embedding researcher) = Some u →
  get_embedding grant_description s = (Ok (Some v), s1) →
  score_researcher_for_grant researcher grant_description s
  = (Ok 0%R,
     (logger ERROR "Error scoring researcher-grant alignment" s1).2).
Proof.
  intros Hu Hg. unfold score_researcher_for_grant. run. by rewrite Hu, Hg.
Qed.

Lemma score_zero researcher grant_description s :
  (score_researcher_for_grant researcher grant_description s).1 = Ok 0%R.
Proof.
  destruct (has_vector (interests_embedding researcher)) as [u|] eqn:Hu.
  - destruct (get_embedding_ok grant_description s) as (v & s1 & Hg & _).
    destruct v as [v|].
    + by rewrite (score_with_vectors _ _ _ _ _ _ Hu Hg).
    + unfold score_researcher_for_grant. run. by rewrite Hu, Hg.
  - unfold score_researcher_for_grant. run. by rewrite Hu.
Qed.

Lemma score_mismatch researcher grant_description s u v :
  has_vector (interests_embedding researcher) = Some u →
  (get_embedding grant_description s).1 = Ok (Some v) →
  length u ≠ length v →
  (score_researcher_for_grant researcher grant_description s).1 = Ok 0%R.
Proof. intros _ _ _. apply score_zero. Qed.

Lemma score_ok researcher grant_description s :
  ∃ x s', score_researcher_for_grant researcher grant_description s = (Ok x, s').
Proof.
  unfold score_researcher_for_grant. run.
  destruct (has_vector _) as [u|]; [|eauto].
  destruct (get_embedding_ok grant_description s) as (v & s1 & Hg & _).
  rewrite Hg. destruct v as [v|]; simpl; eauto.
Qed.

(** Every pair a ranking operation reports carries 1 - d/2, for d the
    cosine distance of the row's vector to the query vector. *)
Lemma remap_rows {A} (vector : A → option (list R)) q rows0
    (rows : list (A * float8)) :
  Forall (annotated vector q rows0) rows →
  Forall (λ p, ∃ w, vector p.1 = Some w ∧ length w = length q
                    ∧ p.2 = similarity_score (cosine_distance w q))
    ((λ row : A * float8, (row.1, similarity_score row.2)) <$> rows).
Proof.
  intros H. apply Forall_fmap. eapply Forall_impl; [exact H|].
  intros [a d] [_ (w & Hw & Hlen & Hd)]. simpl in *. exists w. by subst d.
Qed.

Lemma find_supervisor_match_remap a d k s l :
  (find_supervisor_match a d k s).1 = Ok l →
  Forall (λ p, ∃ q w, (get_embedding a s).1 = Ok (Some q)
                      ∧ interests_embedding p.1 = Some w
                      ∧ length w = length q
                      ∧ p.2 = similarity_score (cosine_distance w q)) l.
Proof.
  destruct (find_supervisor_match_cases a d k s) as (v & s1 & Hg & _ & ->).
  rewrite Hg. destruct v as [q|]; simpl.
  - destruct (ranked _ _ _ _) as [rows|] eqn:Hr; simpl; intros [= <-];
      [|constructor].
    eapply Forall_impl; [apply (remap_rows _ _ _ _ (ranked_ok _ _ _ _ _ Hr))|].
    intros p (w & ?). by exists q, w.
  - intros [= <-]. constructor.
Qed.

Lemma find_aligned_researchers_remap a d k s l :
  (find_aligned_researchers a d k s).1 = Ok l →
  Forall (λ p, ∃ q w, (get_embedding a s).1 = Ok (Some q)
                      ∧ interests_embedding p.1 = Some w
                      ∧ length w = length q
                      ∧ p.2 = similarity_score (cosine_distance w q)) l.
Proof.
  destruct (find_aligned_researchers_cases a d k s) as (v & s1 & Hg & _ & ->).
  rewrite Hg. destruct v as [q|]; simpl.
  - destruct (ranked _ _ _ _) as [rows|] eqn:Hr; simpl; intros [= <-];
      [|constructor].
    eapply Forall_impl; [apply (remap_rows _ _ _ _ (ranked_ok _ _ _ _ _ Hr))|].
    intros p (w & ?). by exists q, w.
  - intros [= <-]. constructor.
Qed.

Lemma find_thesis_matches_remap r k s l :
  (find_thesis_matches r k s).1 = Ok l →
  Forall (λ p, ∃ q w, has_vector (interests_embedding r) = Some q
                      ∧ abstract_embedding p.1 = Some w
                      ∧ length w = length q
                      ∧ p.2 = similarity_score (cosine_distance w q)) l.
Proof.
  rewrite find_thesis_matches_cases.
  destruct (has_vector _) as [q|]; simpl.
  - destruct (ranked _ _ _ _) as [rows|] eqn:Hr; simpl; intros [= <-];
      [|constructor].
    eapply Forall_impl; [apply (remap_rows _ _ _ _ (ranked_ok _ _ _ _ _ Hr))|].
    intros p (w & ?). by exists q, w.
  - intros [= <-]. constructor.
Qed.

(** A vector of another dimension among the candidates: the caller gets
    the empty list.  When the query is sent ([top_k] is not zero) the
    failure is logged as an error; with [top_k] zero no query is sent, no
    vectors are compared and the call ends as a success. *)
Lemma find_supervisor_match_mismatch a d k s q r u :
  (get_embedding a s).1 = Ok (Some q) →
  r ∈ filter_department d (researchers s) →
  interests_embedding r = Some u → length u ≠ length q →
  ∃ s', find_supervisor_match a d k s = (Ok [], s')
        ∧ (k ≠ 0%Z → (ERROR, "Error finding supervisor matches") ∈ log s')
        ∧ (k = 0%Z →
           log s' = log (get_embedding a s).2
                    ++ [(INFO, "Found supervisor matches for thesis abstract")]).
Proof.
  intros Hq Hin Hu Hlen.
  destruct (find_supervisor_match_cases a d k s) as (v & s1 & Hg & Hr & ->).
  rewrite Hg in Hq |- *. simpl in Hq. injection Hq as ->. rewrite Hr.
  destruct (decide (k = 0%Z)) as [->|Hk].
  - rewrite ranked_zero. eexists. split; [reflexivity|]. by split.
  - destruct (ranked_mismatch interests_embedding q _ k r u Hk Hin Hu Hlen)
      as [e ->].
    eexists. split; [reflexivity|]. split; [|done].
    intros _. simpl. apply elem_of_app. right. by left.
Qed.

Lemma find_aligned_researchers_mismatch a d k s q r u :
  (get_embedding a s).1 = Ok (Some q) →
  r ∈ filter_department d (researchers s) →
  interests_embedding r = Some u → length u ≠ length q →
  ∃ s', find_aligned_researchers a d k s = (Ok [], s')
        ∧ (k ≠ 0%Z → (ERROR, "Error finding aligned researchers") ∈ log s')
        ∧ (k = 0%Z →
           log s' = log (get_embedding a s).2
                    ++ [(INFO, "Found researchers aligned with grant")]).
Proof.
  intros Hq Hin Hu Hlen.
  destruct (find_aligned_researchers_cases a d k s) as (v & s1 & Hg & Hr & ->).
  rewrite Hg in Hq |- *. simpl in Hq. injection Hq as ->. rewrite Hr.
  destruct (decide (k = 0%Z)) as [->|Hk].
  - rewrite ranked_zero. eexists. split; [reflexivity|]. by split.
  - destruct (ranked_mismatch interests_embedding q _ k r u Hk Hin Hu Hlen)
      as [e ->].
    eexists. split; [reflexivity|]. split; [|done].
    intros _. simpl. apply elem_of_app. right. by left.
Qed.

Lemma find_thesis_matches_mismatch r k s q p w :
  has_vector (interests_embedding r) = Some q →
  p ∈ publications s →
  abstract_embedding p = Some w → length w ≠ length q →
  ∃ s', find_thesis_matches r k s = (Ok [], s')
        ∧ (k ≠ 0%Z → (ERROR, "Error finding publication matches") ∈ log s')
        ∧ (k = 0%Z →
           log s' = log s
                    ++ [(INFO,
                         "Found publications matching researcher interests")]).
Proof.
  intros Hq Hin Hw Hlen. rewrite find_thesis_matches_cases, Hq.
  destruct (decide (k = 0%Z)) as [->|Hk].
  - rewrite ranked_zero. eexists. split; [reflexivity|]. by split.
  - destruct (ranked_mismatch abstract_embedding q _ k p w Hk Hin Hw Hlen)
      as [e ->].
    eexists. split; [reflexivity|]. split; [|done].
    intros _. simpl. apply elem_of_app. right. by left.
Qed.

(** *** The claims about the services *)

(** C2 (amended): when two vectors of different lengths are compared
    during a matching operation, no failure reaches the caller:
    [score_researcher_for_grant] returns 0.0, and the ranking operations
    return the empty list, logging the error whenever the query is sent,
    that is for every [top_k] but zero (with [top_k] zero no vectors are
    compared, and the empty list is logged as a success). *)
Theorem dimension_mismatch_is_caught :
  (∀ researcher grant_description s u v,
     has_vector (interests_embedding researcher) = Some u →
     (get_embedding grant_description s).1 = Ok (Some v) →
     length u ≠ length v →
     (score_researcher_for_grant researcher grant_description s).1 = Ok 0%R)
  ∧ (∀ thesis_abstract department top_k s q r u,
       (get_embedding thesis_abstract s).1 = Ok (Some q) →
       r ∈ filter_department department (researchers s) →
       interests_embedding r = Some u → length u ≠ length q →
       ∃ s', find_supervisor_match thesis_abstract department top_k s
             = (Ok [], s')
             ∧ (top_k ≠ 0%Z →
                (ERROR, "Error finding supervisor matches") ∈ log s')
             ∧ (top_k = 0%Z →
                log s' = log (get_embedding thesis_abstract s).2
                         ++ [(INFO,
                              "Found supervisor matches for thesis abstract")]))
  ∧ (∀ grant_description department top_k s q r u,
       (get_embedding grant_description s).1 = Ok (Some q) →
       r ∈ filter_department department (researchers s) →
       interests_embedding r = Some u → length u ≠ length q →
       ∃ s', find_aligned_researchers grant_description department top_k s
             = (Ok [], s')
             ∧ (top_k ≠ 0%Z →
                (ERROR, "Error finding aligned researchers") ∈ log s')
             ∧ (top_k = 0%Z →
                log s' = log (get_embedding grant_description s).2
                         ++ [(INFO, "Found researchers aligned with grant")]))
  ∧ (∀ researcher top_k s q p w,
       has_vector (interests_embedding researcher) = Some q →
       p ∈ publications s →
       abstract_embedding p = Some w → length w ≠ length q →
       ∃ s', find_thesis_matches researcher top_k s = (Ok [], s')
             ∧ (top_k ≠ 0%Z →
                (ERROR, "Error finding publication matches") ∈ log s')
             ∧ (top_k = 0%Z →
                log s'
                = log s
                  ++ [(INFO,
                       "Found publications matching researcher interests")])).
Proof.
  split; [apply score_mismatch|].
  split; [apply find_supervisor_match_mismatch|].
  split; [apply find_aligned_researchers_mismatch|].
  apply find_thesis_matches_mismatch.
Qed.


(** C8: each of the three facade operations returns a list, never an
    exception; the list is empty when the query embedding is none, and for
    the publication recommendation when the researcher's stored vector is
    absent. *)
Theorem facade_empty_and_never_raises :
  (∀ thesis_abstract department top_k s,
     (∃ l, (find_supervisor_match thesis_abstract department top_k s).1 = Ok l)
     ∧ ((get_embedding thesis_abstract s).1 = Ok None →
        (find_supervisor_match thesis_abstract department top_k s).1 = Ok []))
  ∧ (∀ grant_description department top_k s,
       (∃ l, (find_aligned_researchers grant_description department top_k s).1
             = Ok l)
       ∧ ((get_embedding grant_description s).1 = Ok None →
          (find_aligned_researchers grant_description department top_k s).1
          = Ok []))
  ∧ (∀ researcher top_k s,
       (∃ l, (find_thesis_matches researcher top_k s).1 = Ok l)
       ∧ (interests_embedding researcher = None →
          (find_thesis_matches researcher top_k s).1 = Ok [])).
Proof.
  split; [|split].
  - intros a d k s.
    destruct (find_supervisor_match_cases a d k s) as (v & s1 & Hg & _ & ->).
    rewrite Hg. split.
    + destruct v; [destruct (ranked _ _ _ _)|]; simpl; eauto.
    + simpl. by intros [= ->].
  - intros a d k s.
    destruct (find_aligned_researchers_cases a d k s) as (v & s1 & Hg & _ & ->).
    rewrite Hg. split.
    + destruct v; [destruct (ranked _ _ _ _)|]; simpl; eauto.
    + simpl. by intros [= ->].
  - intros r k s. rewrite find_thesis_matches_cases. split.
    + destruct (has_vector _); [destruct (ranked _ _ _ _)|]; simpl; eauto.
    + by intros ->.
Qed.

(** C9: an empty or white-space-only text is a no-result outcome:
    [get_embedding] returns none and leaves the state as it was (no model
    load, no draw, no log), and [classify_text] returns the empty list;
    classify_text("", 0.3) == []. *)
Theorem empty_input_is_no_result text :
  strip text = EmptyString →
  (∀ s, get_embedding text s = (Ok None, s))
  ∧ (∀ threshold, classify_text text threshold = [])
  ∧ classify_text EmptyString (3 # 10) = [].
Proof.
  intros H. split; [intros s; by apply get_embedding_blank|].
  split; [|reflexivity]. intros threshold.
  unfold classify_text. apply blank_strip in H. by rewrite H.
Qed.

End WithRuntime.

(** *** The claims at concrete inputs *)

(** A ranking over the table [carol; bob]: carol has no vector and is left
    out; bob is reported with 1 - d/2. *)
Example find_supervisor_match_example :
  (@find_supervisor_match tiny "climate" None 5
     (@fresh tiny 0%Z [carol; bob] [])).1
  = Ok [(bob, similarity_score (cosine_distance [1%R; 0%R] [1%R; 0%R]))].
Proof. reflexivity. Qed.

(** Two vectors of one direction: the distance is 0 and the similarity
    1 - 0/2 = 1. *)
Lemma same_vector_similarity :
  cosine_distance [1%R; 0%R] [1%R; 0%R] = Num 0
  ∧ similarity_score (cosine_distance [1%R; 0%R] [1%R; 0%R]) = Num 1.
Proof.
  assert (cosine_distance [1%R; 0%R] [1%R; 0%R] = Num 0) as ->.
  { rewrite cosine_distance_nonzero by (apply Exists_cons_hd; lra).
    f_equal. unfold cosine. simpl.
    replace ((1 * 1 + (0 * 0 + 0)) * (1 * 1 + (0 * 0 + 0)))%R with 1%R by lra.
    rewrite sqrt_1. lra. }
  split; [done|]. simpl. f_equal. lra.
Qed.

(** A stored zero vector has no direction: its distance to any vector of
    its dimension is NaN, and so is the similarity reported for it. *)
Lemma zero_vector_similarity v :
  similarity_score (cosine_distance [0%R; 0%R] v) = NaN.
Proof.
  rewrite cosine_distance_zero_l; [done|]. by repeat constructor.
Qed.

(** A ranking over the table [dana; bob]: dana's zero vector is at
    distance NaN, which the database orders after every number; she is
    listed last, with NaN for a score. *)
Example find_supervisor_match_zero_vector_example :
  (@find_supervisor_match tiny "climate" None 5
     (@fresh tiny 0%Z [dana; bob] [])).1
  = Ok [(bob, Num 1); (dana, NaN)].
Proof.
  destruct (@find_supervisor_match_cases tiny "climate" None 5
              (@fresh tiny 0%Z [dana; bob] [])) as (v & s1 & Hg & Hr & ->).
  injection Hg as <- <-.
  cbn -[cosine_distance merge_sort similarity_score].
  rewrite (cosine_distance_zero_l [0%R; 0%R] [1%R; 0%R])
    by (by repeat constructor).
  rewrite (proj1 same_vector_similarity). cbn.
  case_decide; [done|]. change (Z.to_nat 5) with 5%nat. simpl.
  replace (1 - 0 / 2)%R with 1%R by lra. reflexivity.
Qed.

(** The department filter applies before the distances are computed. *)
Example find_supervisor_match_department_example :
  (@find_supervisor_match tiny "climate" (Some "Physics"%string) 5
     (@fresh tiny 0%Z [carol; bob; alice] [])).1
  = Ok [].
Proof. reflexivity. Qed.

(** C2, as stated, fails: with a backend that encodes texts as vectors of
    two components and a researcher whose stored vector has three, the
    comparison fails inside both operations, and the caller receives the
    score 0.0 and the empty list. *)
Lemma dimension_mismatch_counterexample :
  (@get_embedding tiny "deep learning" (@fresh tiny 0%Z [alice] [])).1
  = Ok (Some [1%R; 0%R])
  ∧ interests_embedding alice = Some [1%R; 0%R; 0%R]
  ∧ (@score_researcher_for_grant tiny alice "deep learning"
       (@fresh tiny 0%Z [alice] [])).1 = Ok 0%R
  ∧ (@find_supervisor_match tiny "deep learning" None 5
       (@fresh tiny 0%Z [alice] [])).1 = Ok [].
Proof.
  split; [reflexivity|]. split; [reflexivity|]. split.
  - apply (@score_mismatch tiny alice "deep learning" _
             [1%R; 0%R; 0%R] [1%R; 0%R]); [reflexivity|reflexivity|].
    simpl. lia.
  - reflexivity.
Qed.

Lemma dimension_mismatch_is_caught_witness :
  (@score_researcher_for_grant tiny alice "deep learning"
     (@fresh tiny 0%Z [alice] [])).1 = Ok 0%R
  ∧ ∃ s', @find_supervisor_match tiny "deep learning" None 5
            (@fresh tiny 0%Z [alice] []) = (Ok [], s')
          ∧ (ERROR, "Error finding supervisor matches") ∈ log s'.
Proof.
  destruct (@dimension_mismatch_is_caught tiny) as (Hscore & Hrank & _).
  split.
  - apply (Hscore alice "deep learning" _ [1%R; 0%R; 0%R] [1%R; 0%R]);
      [reflexivity|reflexivity|simpl; lia].
  - destruct (Hrank "deep learning" None 5%Z (@fresh tiny 0%Z [alice] [])
                [1%R; 0%R] alice [1%R; 0%R; 0%R])
      as (s' & E & Herr & _);
      [reflexivity|by left|reflexivity|simpl; lia|].
    exists s'. split; [exact E|]. apply Herr. lia.
Defined.

(** C3 does not hold of [score_researcher_for_grant]: line 339 raises
    before the vectors are compared, so the score is 0.0 for every
    researcher and every description, with the error logged whenever both
    vectors are there.  For a researcher whose stored vector is the
    embedding of the description (distance 0), the score reported is 0.0
    where 1 - d/2 is 1. *)
Theorem score_is_zero_for_every_pair :
  (∀ (rt : Runtime) researcher grant_description s,
     (score_researcher_for_grant researcher grant_description s).1 = Ok 0%R)
  ∧ (∀ (rt : Runtime) researcher grant_description s u v,
       has_vector (interests_embedding researcher) = Some u →
       (get_embedding grant_description s).1 = Ok (Some v) →
       (ERROR, "Error scoring researcher-grant alignment")
       ∈ log (score_researcher_for_grant researcher grant_description s).2)
  ∧ has_vector (interests_embedding bob) = Some [1%R; 0%R]
  ∧ (@get_embedding tiny "climate adaptation" (@fresh tiny 0%Z [bob] [])).1
    = Ok (Some [1%R; 0%R])
  ∧ cosine_distance [1%R; 0%R] [1%R; 0%R] = Num 0
  ∧ similarity_score (cosine_distance [1%R; 0%R] [1%R; 0%R]) = Num 1
  ∧ (@score_researcher_for_grant tiny bob "climate adaptation"
       (@fresh tiny 0%Z [bob] [])).1 = Ok 0%R.
Proof.
  split; [intros rt r g s; apply score_zero|].
  split.
  { intros rt r g s u v Hu Hg.
    destruct (get_embedding g s) as [res s1] eqn:E. simpl in Hg. subst res.
    rewrite (score_with_vectors _ _ _ _ _ _ Hu E). simpl.
    apply elem_of_app. right. by left. }
  split; [reflexivity|]. split; [reflexivity|].
  split; [apply same_vector_similarity|].
  split; [apply same_vector_similarity|].
  reflexivity.
Qed.


Lemma facade_empty_and_never_raises_witness :
  (@find_supervisor_match offline "   " None 5
     (@fresh offline 0%Z [alice] [])).1 = Ok []
  ∧ (@find_aligned_researchers offline "   " None 10
       (@fresh offline 0%Z [alice] [])).1 = Ok []
  ∧ (@find_thesis_matches offline carol 5
       (@fresh offline 0%Z [carol] [])).1 = Ok [].
Proof.
  destruct (@facade_empty_and_never_raises offline) as (H1 & H2 & H3).
  split; [|split].
  - apply (H1 "   " None 5%Z). reflexivity.
  - apply (H2 "   " None 10%Z). reflexivity.
  - apply (H3 carol 5%Z). reflexivity.
Defined.

Lemma empty_input_is_no_result_witness :
  strip blank_text = EmptyString
  ∧ (∀ s, @get_embedding offline blank_text s = (Ok None, s))
  ∧ (∀ threshold, classify_text blank_text threshold = [])
  ∧ classify_text EmptyString (3 # 10) = [].
Proof.
  split; [reflexivity|].
  apply (@empty_input_is_no_result offline blank_text). reflexivity.
Defined.

End ServicesFacts.

(** ** More about the classifier *)

Module SDGClassifierMore.

Import PyStr PyStrFacts PyFloat PyFloatFacts SDGClassifier SDGClassifierFacts.

(** *** The result as a function of the token set *)

Lemma normalize_fixed text :
  _normalize_text (_normalize_text text) = _normalize_text text.
Proof.
  pose proof (normalize_in_class text) as Hn.
  unfold _normalize_text at 1. unfold lower.
  rewrite (map_chars_id lower_char in_class _ lower_char_fixed Hn).
  rewrite (map_chars_id sub_special in_class _ sub_special_fixed Hn).
  symmetry. apply split_normalize.
Qed.

Lemma tokens_of_normalize text :
  tokens_of (_normalize_text text) = tokens_of text.
Proof. unfold tokens_of. by rewrite normalize_fixed. Qed.

Lemma filter_none {A} (P : A → Prop) `{!∀ x, Decision (P x)} (l : list A) :
  Forall (λ x, ¬ P x) l → filter P l = [].
Proof.
  induction 1 as [|x l Hx Hl IH]; [done|].
  rewrite filter_cons. by case_decide.
Qed.

Lemma no_tokens_no_match :
  Forall (λ item : SDGChoices * list string,
            _count_keyword_matches ∅ item.2 = 0%Z) SDG_KEYWORDS.
Proof. apply (bool_decide_unpack _). vm_compute. reflexivity. Qed.

Lemma no_tokens_no_pass threshold :
  filter (λ item, passes ∅ threshold item) SDG_KEYWORDS = [].
Proof.
  apply filter_none. eapply Forall_impl; [apply no_tokens_no_match|].
  intros item H Hp. apply Is_true_true in Hp. unfold passes in Hp.
  rewrite H in Hp. discriminate Hp.
Qed.

(** The early return agrees with the loop: a text of white space only has
    no token, and without tokens no category passes. *)
Lemma classify_text_by_tokens text threshold :
  classify_text text threshold
  = (filter (λ item, passes (tokens_of text) threshold item) SDG_KEYWORDS).*1.
Proof.
  rewrite classify_text_filter.
  destruct (negb (truthy text) || negb (truthy (strip text))) eqn:Hb; [|done].
  apply blank_iff in Hb. by rewrite (tokens_of_spaces _ Hb), no_tokens_no_pass.
Qed.

(** X1: [classify_text] reads the text through its token set only: two
    texts with the same tokens (whatever the case, the punctuation, the
    order and the repetition of the words) get the same categories. *)
Theorem classify_text_token_set text1 text2 threshold :
  tokens_of text1 = tokens_of text2 →
  classify_text text1 threshold = classify_text text2 threshold.
Proof. intros H. by rewrite !classify_text_by_tokens, H. Qed.

Lemma classify_text_token_set_witness :
  classify_text "Ocean FISH; coral sea, Marine fishing and coastal fish!" (3 # 10)
  = classify_text "coastal coral and fishing marine sea fish ocean" (3 # 10)
  ∧ classify_text "coastal coral and fishing marine sea fish ocean" (3 # 10)
    = [SDG_14].
Proof.
  split; [|vm_compute; reflexivity].
  apply classify_text_token_set. vm_compute. reflexivity.
Defined.

(** X2: classifying a normalised text gives what classifying the text
    gives. *)
Theorem classify_text_normalized text threshold :
  classify_text (_normalize_text text) threshold
  = classify_text text threshold.
Proof. by rewrite !classify_text_by_tokens, tokens_of_normalize. Qed.

(** *** Bounds of the match count *)

Lemma Qle_add_r (c d : Q) : (0 <= d)%Q → (c <= c + d)%Q.
Proof.
  intros Hd. rewrite <- (Qplus_0_r c) at 1. by apply Qplus_le_r.
Qed.

Lemma count_keyword_bounds T count k :
  (count <= count_keyword T count k)%Q
  ∧ (count_keyword T count k <= count + 1)%Q.
Proof.
  unfold count_keyword.
  destruct (forallb _ _); [|destruct (existsb _ _)]; split;
    try apply Qle_refl; try (apply Qle_add_r; unfold Qle; simpl; lia).
  apply Qplus_le_r. unfold Qle; simpl; lia.
Qed.

Lemma fold_count_bounds T K count :
  (count <= fold_left (count_keyword T) K count)%Q
  ∧ (fold_left (count_keyword T) K count
     <= count + inject_Z (Z.of_nat (length K)))%Q.
Proof.
  revert count. induction K as [|k K IH]; intros count.
  - simpl. split; [apply Qle_refl|]. rewrite Qplus_0_r. apply Qle_refl.
  - cbn [fold_left length].
    destruct (IH (count_keyword T count k)) as [Hlo Hhi].
    destruct (count_keyword_bounds T count k) as [Hlo' Hhi'].
    split; [by eapply Qle_trans|].
    eapply Qle_trans; [exact Hhi|].
    rewrite Nat2Z.inj_succ. unfold Z.succ. rewrite inject_Z_plus.
    rewrite (Qplus_comm (inject_Z (Z.of_nat (length K)))), Qplus_assoc.
    apply Qplus_le_compat; [exact Hhi'|apply Qle_refl].
Qed.

Lemma count_matches_range (T : gset string) (K : list string) :
  (0 <= _count_keyword_matches T K <= Z.of_nat (length K))%Z.
Proof.
  unfold _count_keyword_matches.
  destruct (fold_count_bounds T K 0%Q) as [Hlo Hhi].
  rewrite Qplus_0_l in Hhi. rewrite (int_of_floor _ Hlo).
  split; [exact (Qfloor_resp_le _ _ Hlo)|].
  apply Qfloor_resp_le in Hhi. by rewrite Qfloor_Z in Hhi.
Qed.

(** *** The default threshold

    The examples write the default threshold 0.3 as 3/10 and the title's
    threshold as 3/10 + 1/10, where Python has the doubles [0.3] and
    [0.3 + 0.1].  No ratio of a count by the length of a keyword list lies
    between the two readings, so they select the same categories. *)

Lemma default_threshold_ratios :
  forallb (λ item : SDGChoices * list string,
             forallb (λ m,
                        let ratio :=
                          true_divide (Z.of_nat m) (Z.of_nat (length item.2)) in
                        Bool.eqb (Qle_bool (3 # 10) ratio)
                          (Qle_bool float_0_3 ratio)
                        && Bool.eqb (Qle_bool ((3 # 10) + (1 # 10)) ratio)
                             (Qle_bool float_0_4 ratio))
               (seq 0 (S (length item.2))))
    SDG_KEYWORDS = true.
Proof. vm_compute. reflexivity. Qed.

Lemma passes_default_threshold T item :
  item ∈ SDG_KEYWORDS →
  passes T (3 # 10) item = passes T float_0_3 item
  ∧ passes T ((3 # 10) + (1 # 10)) item = passes T float_0_4 item.
Proof.
  intros Hin. pose proof default_threshold_ratios as H.
  rewrite forallb_forall in H.
  specialize (H item (proj1 (list_elem_of_In _ _) Hin)).
  rewrite forallb_forall in H.
  pose proof (count_matches_range T item.2) as Hm.
  specialize (H (Z.to_nat (_count_keyword_matches T item.2))).
  rewrite Z2Nat.id in H by lia.
  destruct (proj1 (andb_true_iff _ _) (H ltac:(apply in_seq; lia)))
    as [H3%Bool.eqb_prop H4%Bool.eqb_prop].
  unfold passes. by rewrite H3, H4.
Qed.

Lemma classify_text_default_threshold text :
  classify_text text (3 # 10) = classify_text text float_0_3
  ∧ classify_text text ((3 # 10) + (1 # 10)) = classify_text text float_0_4.
Proof.
  assert (∀ (t t' : Q) (items : list (SDGChoices * list string)),
            Forall (λ item, passes (tokens_of text) t item
                            = passes (tokens_of text) t' item) items →
            filter (λ item, passes (tokens_of text) t item) items
            = filter (λ item, passes (tokens_of text) t' item) items) as Hext.
  { intros t t' items. induction 1 as [|item items Hp _ IH]; [done|].
    rewrite !filter_cons, IH, Hp. done. }
  assert (∀ item, item ∈ SDG_KEYWORDS →
            passes (tokens_of text) (3 # 10) item
            = passes (tokens_of text) float_0_3 item) as H3.
  { intros item Hin. apply (passes_default_threshold _ item Hin). }
  assert (∀ item, item ∈ SDG_KEYWORDS →
            passes (tokens_of text) ((3 # 10) + (1 # 10)) item
            = passes (tokens_of text) float_0_4 item) as H4.
  { intros item Hin. apply (passes_default_threshold _ item Hin). }
  rewrite <- Forall_forall in H3, H4.
  rewrite (classify_text_by_tokens text (3 # 10)).
  rewrite (classify_text_by_tokens text float_0_3).
  rewrite (classify_text_by_tokens text ((3 # 10) + (1 # 10))).
  rewrite (classify_text_by_tokens text float_0_4).
  rewrite (Hext _ _ _ H3), (Hext _ _ _ H4). split; reflexivity.
Qed.

(** [classify_publication] at the default threshold, with the doubles
    Python has: the title at [0.3 + 0.1], the abstract at [0.3]. *)
Lemma classify_publication_default_threshold title abstract :
  classify_publication title abstract (3 # 10)
  = sorted
      (elements
         ((if truthy title
           then list_to_set (classify_text title float_0_4) else ∅)
          ∪ (if truthy abstract
             then list_to_set (classify_text abstract float_0_3) else ∅)
          : gset SDGChoices)).
Proof.
  unfold classify_publication.
  rewrite (proj2 (classify_text_default_threshold title)).
  rewrite (proj1 (classify_text_default_threshold abstract)).
  destruct (truthy title), (truthy abstract);
    by rewrite ?(left_id_L ∅ (∪)), ?(right_id_L ∅ (∪)).
Qed.

(** X3: the match count lies between 0 and the number of keywords, for
    every token set and every keyword list. *)
Theorem count_keyword_matches_bounds (T : gset string) (K : list string) :
  (0 <= _count_keyword_matches T K <= Z.of_nat (length K))%Z.
Proof.
  unfold _count_keyword_matches.
  destruct (fold_count_bounds T K 0%Q) as [Hlo Hhi].
  rewrite Qplus_0_l in Hhi.
  rewrite (int_of_floor _ Hlo). split.
  - apply Qfloor_resp_le in Hlo. exact Hlo.
  - apply Qfloor_resp_le in Hhi. by rewrite Qfloor_Z in Hhi.
Qed.

Lemma ratio_le_1 (T : gset string) (K : list string) :
  (true_divide (_count_keyword_matches T K) (Z.of_nat (length K)) <= 1)%Q.
Proof.
  apply true_divide_le_1. apply count_matches_range.
Qed.

(** X4: a threshold above 1 selects nothing. *)
Theorem classify_text_threshold_above_one text threshold :
  (1 < threshold)%Q → classify_text text threshold = [].
Proof.
  intros Ht. rewrite classify_text_by_tokens.
  rewrite filter_none; [done|].
  apply Forall_forall. intros [c K] _ Hp. apply Is_true_true in Hp.
  unfold passes in Hp. simpl in Hp.
  apply andb_true_iff in Hp as [Hm Hr].
  apply negb_true_iff, Z.eqb_neq in Hm. apply Qle_bool_iff in Hr.
  apply (Qlt_not_le _ _ Ht). eapply Qle_trans; [exact Hr|].
  apply ratio_le_1.
Qed.

Lemma classify_text_threshold_above_one_witness :
  (1 < 11 # 10)%Q
  ∧ classify_text "poverty poor welfare destitution deprivation" (11 # 10) = [].
Proof.
  split; [reflexivity|].
  apply classify_text_threshold_above_one. reflexivity.
Defined.

(** *** More text, more categories *)

Lemma split_from_app_space w u c v :
  isspace c = true →
  split_from w (u +:+ String c v) = split_from w u ++ split v.
Proof.
  intros Hc. revert w. induction u as [|a u IH]; intros w; unfold_append.
  - rewrite (split_from_space _ _ _ Hc). simpl. done.
  - simpl. destruct (isspace a).
    + rewrite IH. by rewrite app_assoc.
    + apply IH.
Qed.

(** The tokens of a text are the words of the lowercased text with the
    special characters blanked. *)
Lemma tokens_of_words text :
  tokens_of text = list_to_set (split (map_chars sub_special (lower text))).
Proof.
  unfold tokens_of, _tokenize, _normalize_text.
  rewrite split_join; [done|].
  pose proof (split_words in_class (map_chars sub_special (lower text))
                (all_chars_map _ _ _ in_class_sub_special)) as H.
  eapply Forall_impl; [exact H|]. by intros w [? _].
Qed.

Lemma map_chars_app f s1 s2 :
  map_chars f (s1 +:+ s2) = map_chars f s1 +:+ map_chars f s2.
Proof.
  induction s1 as [|c s1 IH]; unfold_append; simpl; [done|].
  unfold_append. by rewrite IH.
Qed.

Lemma blanked_app a b :
  map_chars sub_special (lower (a +:+ String " " b))
  = map_chars sub_special (lower a)
    +:+ String " " (map_chars sub_special (lower b)).
Proof. unfold lower. by rewrite !map_chars_app. Qed.

Lemma tokens_of_app a b :
  tokens_of (a +:+ " " +:+ b) = tokens_of a ∪ tokens_of b.
Proof.
  change (a +:+ " " +:+ b) with (a +:+ String " " b).
  rewrite !tokens_of_words, blanked_app. unfold split at 1.
  rewrite split_from_app_space by reflexivity.
  apply list_to_set_app_L.
Qed.

Lemma spec_credit_mono (T T' : gset string) k :
  T ⊆ T' → (spec_credit T k <= spec_credit T' k)%Q.
Proof.
  intros Hsub. unfold spec_credit.
  destruct (decide (Forall (λ w, w ∈ T) (split k))) as [Hall|Hall].
  - rewrite decide_True; [apply Qle_refl|].
    eapply Forall_impl; [exact Hall|]. intros w Hw. by apply Hsub.
  - destruct (decide (Exists (λ w, w ∈ T) (split k))) as [Hex|Hex].
    + assert (Exists (λ w, w ∈ T') (split k)) as Hex'.
      { eapply Exists_impl; [exact Hex|]. intros w Hw. by apply Hsub. }
      destruct (decide (Forall (λ w, w ∈ T') (split k))); [done|].
      rewrite decide_True by done. apply Qle_refl.
    + repeat case_decide; done.
Qed.

Lemma spec_credits_mono (T T' : gset string) K :
  T ⊆ T' → (spec_credits T K <= spec_credits T' K)%Q.
Proof.
  intros Hsub. unfold spec_credits.
  induction K as [|k K IH]; simpl; [apply Qle_refl|].
  apply Qplus_le_compat; [by apply spec_credit_mono|exact IH].
Qed.

Lemma spec_matches_mono (T T' : gset string) K :
  T ⊆ T' → (spec_matches T K <= spec_matches T' K)%Z.
Proof.
  intros Hsub. unfold spec_matches.
  rewrite !int_of_floor by apply spec_credits_nonneg.
  by apply Qfloor_resp_le, spec_credits_mono.
Qed.

(** Membership in the result, in the terms of the scoring rule, for every
    text. *)
Lemma elem_of_classify_text_counts text threshold c :
  c ∈ classify_text text threshold
  ↔ (1 <= spec_matches (tokens_of text) (get_keywords_for_sdg c))%Z
    ∧ (threshold <= float_ratio (tokens_of text) (get_keywords_for_sdg c))%Q.
Proof.
  rewrite elem_of_classify_text, passes_spec.
  destruct (all_chars isspace text) eqn:Hs; [|tauto].
  rewrite (tokens_of_spaces _ Hs), spec_matches_no_tokens.
  split; [by intros [? _]|]. intros [? _]. lia.
Qed.

Lemma spec_credit_le_1 (T : gset string) k : (spec_credit T k <= 1)%Q.
Proof. unfold spec_credit. repeat case_decide; done. Qed.

Lemma spec_credits_le_length (T : gset string) K :
  (spec_credits T K <= inject_Z (Z.of_nat (length K)))%Q.
Proof.
  unfold spec_credits. induction K as [|k K IH]; [done|].
  cbn [fmap list_fmap foldr length].
  rewrite Nat2Z.inj_succ. unfold Z.succ.
  rewrite inject_Z_plus, Qplus_comm.
  apply Qplus_le_compat; [exact IH|apply spec_credit_le_1].
Qed.

Lemma spec_matches_le_length (T : gset string) K :
  (spec_matches T K <= Z.of_nat (length K))%Z.
Proof.
  unfold spec_matches. rewrite int_of_floor by apply spec_credits_nonneg.
  pose proof (Qfloor_resp_le _ _ (spec_credits_le_length T K)) as H.
  by rewrite Qfloor_Z in H.
Qed.

(** More tokens, a larger ratio: the rounding of the division keeps the
    order of the counts. *)
Lemma float_ratio_mono (T T' : gset string) K :
  T ⊆ T' → (float_ratio T K <= float_ratio T' K)%Q.
Proof.
  intros Hsub. unfold float_ratio. apply true_divide_mono.
  - split; [apply spec_matches_nonneg|by apply spec_matches_mono].
  - apply spec_matches_le_length.
Qed.

Lemma classify_text_more_tokens text1 text2 threshold c :
  tokens_of text1 ⊆ tokens_of text2 →
  c ∈ classify_text text1 threshold → c ∈ classify_text text2 threshold.
Proof.
  intros Hsub. rewrite !elem_of_classify_text_counts. intros [Hm Hr].
  pose proof (spec_matches_mono _ _ (get_keywords_for_sdg c) Hsub) as Hm'.
  pose proof (float_ratio_mono _ _ (get_keywords_for_sdg c) Hsub) as Hr'.
  split; [lia|]. by eapply Qle_trans.
Qed.

(** X5: adding text never removes a category: what [classify_text] finds
    in one of two texts, it finds in the two joined by a space. *)
Theorem classify_text_append text1 text2 threshold c :
  c ∈ classify_text text1 threshold ∨ c ∈ classify_text text2 threshold →
  c ∈ classify_text (text1 +:+ " " +:+ text2) threshold.
Proof.
  intros [H|H]; revert H; apply classify_text_more_tokens;
    rewrite tokens_of_app; set_solver.
Qed.

Lemma classify_text_append_witness :
  SDG_2 ∈ classify_text
            ("hunger famine starvation crop farming livestock"
             +:+ " " +:+ "inequality inequity disparity marginalize unequal")
            (3 # 10).
Proof.
  apply classify_text_append. left.
  apply (bool_decide_unpack _). vm_compute. exact I.
Defined.

(** *** What a token can be *)

Lemma token_char_of_class c :
  in_class c = true → isspace c = false → token_char c = true.
Proof.
  unfold in_class, token_char. intros H Hs.
  by rewrite Hs, orb_false_r in H.
Qed.

Lemma all_token_chars w :
  all_chars (λ c, negb (isspace c)) w = true → all_chars in_class w = true →
  all_chars token_char w = true.
Proof.
  induction w as [|a w IH]; simpl; [done|].
  intros [Ha Hsp]%andb_true_iff [Hca Hc]%andb_true_iff.
  rewrite (IH Hsp Hc), andb_true_r.
  apply token_char_of_class; [done|]. by apply negb_true_iff.
Qed.

Lemma words_are_clean text :
  Forall (λ w, w ≠ EmptyString ∧ all_chars token_char w = true)
    (split (map_chars sub_special (lower text))).
Proof.
  pose proof (split_words in_class (map_chars sub_special (lower text))
                (all_chars_map _ _ _ in_class_sub_special)) as H.
  eapply Forall_impl; [exact H|]. intros w [[Hne Hsp] Hc].
  split; [done|]. by apply all_token_chars.
Qed.

(** X6: every token is a non-empty word of lowercase letters, digits and
    hyphens. *)
Theorem tokens_are_clean text w :
  w ∈ tokens_of text → w ≠ EmptyString ∧ all_chars token_char w = true.
Proof.
  rewrite tokens_of_words, elem_of_list_to_set. intros Hw.
  pose proof (words_are_clean text) as H. rewrite Forall_forall in H.
  by apply H.
Qed.

Lemma tokens_are_clean_witness :
  "co-op" ∈ tokens_of "The Co-Op (est. 2024)!"
  ∧ "co-op"%string ≠ EmptyString
  ∧ all_chars token_char "co-op" = true.
Proof.
  assert ("co-op" ∈ tokens_of "The Co-Op (est. 2024)!") as H
    by (apply (bool_decide_unpack _); vm_compute; exact I).
  split; [exact H|]. exact (tokens_are_clean _ _ H).
Defined.

(** X7: a keyword with a word that holds any other character (an
    apostrophe, say) never earns the full credit, whatever the text: the
    count grows by at most one half. *)
Theorem unmatchable_keyword text count k :
  Exists (λ w, all_chars token_char w = false) (split (lower k)) →
  (count_keyword (tokens_of text) count k <= count + (1 # 2))%Q.
Proof.
  intros Hex. unfold count_keyword. rewrite forallb_decide.
  rewrite bool_decide_eq_false_2.
  - destruct (existsb _ _); [apply Qle_refl|].
    apply Qle_add_r. unfold Qle. simpl. lia.
  - intros Hall. apply Exists_exists in Hex as (w & Hw & Hbad).
    rewrite Forall_forall in Hall.
    pose proof (Hall _ Hw) as Hin.
    rewrite tokens_of_words, elem_of_list_to_set in Hin.
    pose proof (words_are_clean text) as Hc. rewrite Forall_forall in Hc.
    destruct (Hc _ Hin) as [_ Hok]. congruence.
Qed.

Lemma unmatchable_keyword_witness :
  "women's rights" ∈ get_keywords_for_sdg SDG_5
  ∧ (count_keyword (tokens_of "Women's rights are human rights") 0
       "women's rights" <= 0 + (1 # 2))%Q.
Proof.
  split; [apply (bool_decide_unpack _); vm_compute; exact I|].
  apply unmatchable_keyword.
  apply (bool_decide_unpack _). vm_compute. exact I.
Defined.

End SDGClassifierMore.

(** ** The model layer *)

Module ModelsFacts.

Import PyStr SDGClassifier SDGClassifierFacts Models.

(** *** Labels *)

Lemma description_in_missing cs s :
  (∀ c, value c ≠ s) →
  description_in ((λ c, (value c, label c)) <$> cs) s = s.
Proof.
  intros Hs. induction cs as [|c cs IH]; simpl; [done|].
  destruct (String.eqb_spec (value c) s) as [E|_]; [by destruct (Hs c)|done].
Qed.

(** X8: [get_sdg_description] maps the code of every goal to its label,
    and returns any other string as it is. *)
Theorem get_sdg_description_lookup :
  (∀ c, get_sdg_description (value c) = label c)
  ∧ (∀ s, (∀ c, value c ≠ s) → get_sdg_description s = s).
Proof.
  split.
  - intros c. destruct c; reflexivity.
  - intros s Hs. unfold get_sdg_description, SDGChoices_choices.
    by apply description_in_missing.
Qed.

Lemma get_sdg_description_lookup_witness :
  get_sdg_description "SDG_13" = "Climate Action"%string
  ∧ get_sdg_description "SDG_18" = "SDG_18"%string.
Proof.
  destruct get_sdg_description_lookup as [Hhit Hmiss]. split.
  - exact (Hhit SDG_13).
  - apply Hmiss. intros c. destruct c; discriminate.
Defined.

Lemma fold_labels table tags labels :
  fold_left (λ labels sdg_code, labels ++ label_in table sdg_code) tags labels
  = labels ++ concat (label_in table <$> tags).
Proof.
  revert labels. induction tags as [|t tags IH]; intros labels; simpl.
  - by rewrite app_nil_r.
  - by rewrite IH, app_assoc.
Qed.

Lemma label_in_missing cs s :
  (∀ c, value c ≠ s) → label_in ((λ c, (value c, label c)) <$> cs) s = [].
Proof.
  intros Hs. induction cs as [|c cs IH]; simpl; [done|].
  destruct (String.eqb_spec (value c) s) as [E|_]; [by destruct (Hs c)|done].
Qed.

Lemma label_in_value c : label_in SDGChoices_choices (value c) = [label c].
Proof. destruct c; reflexivity. Qed.

(** X9: [get_sdg_labels] gives the labels of the valid codes of a tag
    list, in order, one each; a tag that is no code is dropped (where
    [get_sdg_description] would return it). *)
Theorem get_sdg_labels_valid_codes :
  (∀ cs, get_sdg_labels (value <$> cs) = label <$> cs)
  ∧ (∀ tags1 tags2 s, (∀ c, value c ≠ s) →
       get_sdg_labels (tags1 ++ s :: tags2)
       = get_sdg_labels tags1 ++ get_sdg_labels tags2).
Proof.
  unfold get_sdg_labels. split.
  - intros cs. rewrite fold_labels, app_nil_l.
    induction cs as [|c cs IH]; [done|].
    rewrite !fmap_cons, concat_cons, label_in_value, IH. done.
  - intros tags1 tags2 s Hs. rewrite !fold_labels, !app_nil_l.
    rewrite fmap_app, concat_app, fmap_cons, concat_cons.
    unfold SDGChoices_choices at 2. by rewrite (label_in_missing _ _ Hs).
Qed.

Lemma get_sdg_labels_valid_codes_witness :
  get_sdg_labels ["SDG_10"; "none"; "SDG_2"]
  = ["Reduced Inequalities"; "Zero Hunger"]%string.
Proof.
  destruct get_sdg_labels_valid_codes as [Hvalid Hdrop].
  apply (Hdrop ["SDG_10"%string] ["SDG_2"%string] "none"%string).
  intros c. destruct c; discriminate.
Defined.

(** *** Saving a publication *)

Lemma save_cases self :
  save self
  = match sdg_tags self with
    | [] =>
        if truthy_text (abstract self) then
          match classify_publication (title self) (text_of (abstract self))
                  (3 # 10) with
          | [] => self
          | c :: cs =>
              {| title := title self; abstract := abstract self;
                 sdg_tags := value <$> (c :: cs);
                 sdg_auto_generated := true |}
          end
        else
          {| title := title self; abstract := abstract self;
             sdg_tags := []; sdg_auto_generated := false |}
    | t :: ts =>
        {| title := title self; abstract := abstract self;
           sdg_tags := t :: ts; sdg_auto_generated := false |}
    end.
Proof.
  unfold save. destruct (sdg_tags self) eqn:Ht; [|done].
  destruct (truthy_text _); [|done]. by destruct (classify_publication _ _ _).
Qed.

(** X10: saving twice leaves the tags of the first save, but not the flag:
    tags generated by a save are flagged as generated, and the next save
    flags them as not generated (as it does for tags set by hand). *)
Theorem save_twice self :
  sdg_tags (save (save self)) = sdg_tags (save self)
  ∧ (sdg_tags (save self) ≠ [] → sdg_auto_generated (save (save self)) = false)
  ∧ (sdg_tags self = [] → sdg_tags (save self) ≠ [] →
     sdg_auto_generated (save self) = true
     ∧ sdg_tags (save self)
       = value <$> classify_publication (title self) (text_of (abstract self))
                     (3 # 10)).
Proof.
  rewrite (save_cases (save self)), (save_cases self).
  destruct self as [ti ab tags flag]. simpl.
  destruct tags as [|t ts]; simpl;
    [|repeat split; intros; simpl in *; congruence].
  destruct (truthy_text ab) eqn:Hab; simpl;
    [|rewrite Hab; repeat split; intros; simpl in *; congruence].
  destruct (classify_publication ti (text_of ab) (3 # 10)) as [|c cs] eqn:Hc;
    simpl; [|repeat split; intros; simpl in *; congruence].
  rewrite Hab, Hc. repeat split; intros; simpl in *; congruence.
Qed.

Lemma save_twice_witness :
  sdg_tags (save hunger_paper) = ["SDG_10"; "SDG_2"]%string
  ∧ sdg_auto_generated (save hunger_paper) = true
  ∧ sdg_tags (save (save hunger_paper)) = sdg_tags (save hunger_paper)
  ∧ sdg_auto_generated (save (save hunger_paper)) = false.
Proof.
  destruct (save_twice hunger_paper) as (Htags & Hflag & Hgen).
  assert (sdg_tags (save hunger_paper) = ["SDG_10"; "SDG_2"]%string) as E
    by (vm_compute; reflexivity).
  assert (sdg_tags (save hunger_paper) ≠ []) as Hne by (rewrite E; discriminate).
  split; [exact E|]. split; [by apply Hgen|]. split; [exact Htags|].
  by apply Hflag.
Defined.

End ModelsFacts.

(** ** More about the services *)

Module ServicesMore.

Import PyStr PyStrFacts Services VectorFacts ServicesFacts.

Local Open Scope R_scope.

(** *** Vectors *)

Lemma dot_div n (u v : list R) :
  n ≠ 0 →
  dot ((λ x, x / n) <$> u) ((λ x, x / n) <$> v) = dot u v / (n * n).
Proof.
  intros Hn. revert v.
  induction u as [|x u IH]; intros [|y v]; simpl; try (field; done).
  rewrite IH. field. done.
Qed.

Lemma normalized_unit (u : list R) :
  Exists (λ x, x ≠ 0) u →
  sqrt (dot ((λ x, x / sqrt (dot u u)) <$> u)
            ((λ x, x / sqrt (dot u u)) <$> u)) = 1.
Proof.
  intros Hu. pose proof (dot_self_pos u Hu) as Hpos.
  assert (0 < sqrt (dot u u)) as Hs by (by apply sqrt_lt_R0).
  rewrite dot_div by lra. rewrite sqrt_sqrt by lra.
  replace (dot u u / dot u u) with 1 by (field; lra).
  apply sqrt_1.
Qed.

Lemma clamp_range x : 0 <= py_max 0 (py_min 1 x) <= 1.
Proof.
  unfold py_max, py_min.
  destruct (Rlt_dec x 1); destruct (Rlt_dec 0 _); lra.
Qed.

Lemma Sorted_take {A} (Rel : relation A) (l : list A) n :
  Sorted Rel l → Sorted Rel (take n l).
Proof.
  intros Hl. revert n. induction Hl as [|x l Hl IH Hx]; intros [|n]; simpl;
    try constructor; [apply IH|].
  destruct Hx as [|y l Hxy]; destruct n; simpl; constructor. done.
Qed.

#[local] Instance by_distance_total {A} :
  Total (λ x y : A * float8, float8_le x.2 y.2).
Proof.
  intros [? [a|]] [? [b|]]; simpl; try tauto.
  destruct (Rle_dec a b); [by left|right; lra].
Qed.

Lemma similarity_score_order (x y : float8) :
  float8_le x y → score_ge (similarity_score x) (similarity_score y).
Proof. destruct x as [a|], y as [b|]; simpl; try done. lra. Qed.

(** *** The ranking query *)

Lemma ranked_shape {A} (vector : A → option (list R)) q rows top_k l :
  ranked vector q rows top_k = Ok l →
  (length l ≤ Z.to_nat top_k)%nat
  ∧ Sorted (λ x y : A * float8, float8_le x.2 y.2) l.
Proof.
  unfold ranked. destruct (top_k <? 0)%Z; [done|].
  destruct (top_k =? 0)%Z.
  { intros [= <-]. split; [simpl; lia|constructor]. }
  destruct (annotate vector q rows) as [l'|]; [|done].
  intros [= <-]. split.
  - rewrite length_take. lia.
  - apply Sorted_take, Sorted_merge_sort, _.
Qed.

Lemma ranked_not_positive {A} (vector : A → option (list R)) q rows top_k l :
  (top_k <= 0)%Z → ranked vector q rows top_k = Ok l → l = [].
Proof.
  intros Hk. unfold ranked. destruct (top_k <? 0)%Z; [done|].
  destruct (top_k =? 0)%Z; [by intros [= <-]|].
  destruct (annotate vector q rows) as [l'|]; [|done].
  intros [= <-]. replace (Z.to_nat top_k) with 0%nat by lia. done.
Qed.

Lemma elem_of_filter_department d rows r :
  r ∈ filter_department d rows →
  r ∈ rows
  ∧ ∀ dep, d = Some dep → truthy dep = true → department r = Some dep.
Proof.
  unfold filter_department. destruct d as [dep|].
  - destruct (truthy dep) eqn:Ht.
    + intros [Hd Hin]%list_elem_of_filter. split; [done|].
      intros dep' [= <-] _. done.
    + intros Hin. split; [done|]. intros dep' [= <-]. congruence.
  - intros Hin. split; [done|]. discriminate.
Qed.

Section WithRuntime.

Context `{rt : Runtime}.

(** *** [get_embedding_model] and [get_embedding] *)

(** X11: the backend is loaded at most once: a second call of
    [get_embedding_model] returns what the first returned and changes
    nothing; a failed load is not tried again (and is logged once). *)
Theorem get_embedding_model_once s :
  get_embedding_model (get_embedding_model s).2 = get_embedding_model s
  ∧ ∃ m, (get_embedding_model s).1 = Ok m.
Proof.
  unfold get_embedding_model. run.
  destruct (_embedding_model s) eqn:Hh.
  - destruct load_model eqn:Hl; run; eauto.
  - simpl. rewrite ?Hh. eauto.
  - simpl. rewrite ?Hh. eauto.
Qed.

(** X12: [get_embedding] never raises, and returns none in two cases only:
    the text is blank, or the loaded backend raised while encoding it. *)
Theorem get_embedding_none_iff text s :
  ∃ v s',
    get_embedding text s = (Ok v, s')
    ∧ (v = None
       ↔ strip text = EmptyString
         ∨ ∃ m e, (get_embedding_model s).1 = Ok (Some m)
                  ∧ encode m text = Raise e).
Proof.
  unfold get_embedding.
  destruct (negb (truthy text) || negb (truthy (strip text))) eqn:Hb.
  - apply blank_strip in Hb. exists None, s. split; [done|]. tauto.
  - assert (strip text ≠ EmptyString) as Hne.
    { intros H. apply blank_strip in H. congruence. }
    destruct (get_embedding_model_ok s) as (m & s1 & Hm & _). run.
    rewrite Hm. simpl. destruct m as [m|].
    + destruct (encode m text) as [v|e] eqn:He; simpl; eexists _, _;
        (split; [reflexivity|]).
      * split; [done|]. intros [?|(m' & e & [= <-] & He')]; congruence.
      * split; [|done]. intros _. right. by exists m, e.
    + destruct (randn EMBEDDING_DIMENSION _) as [sample g]. simpl.
      eexists _, _. split; [reflexivity|].
      split; [done|]. intros [?|(m' & e & ? & _)]; congruence.
Qed.

(** X13: the fallback vector has the length of the sample drawn and, when
    the sample is not the zero vector, norm 1. *)
Theorem fallback_embedding_unit_norm text s :
  strip text ≠ EmptyString → unavailable s →
  Exists (λ x, x ≠ 0) (randn 384 (seed (hash text mod 2 ^ 32))).1 →
  ∃ v s',
    get_embedding text s = (Ok (Some v), s')
    ∧ norm v = 1
    ∧ length v = length (randn 384 (seed (hash text mod 2 ^ 32))).1.
Proof.
  intros Hne Hs Hnz.
  destruct (get_embedding_fallback text s Hne Hs) as [s' [E _]].
  exists (spec_fallback text), s'. split; [exact E|].
  unfold spec_fallback, norm. split.
  - by apply normalized_unit.
  - apply length_fmap.
Qed.

(** *** [score_researcher_for_grant] *)

(** X14: [score_researcher_for_grant] never raises and its score lies in
    [0, 1]; for a researcher without stored vector it is 0 and the
    embedding service is not called. *)
Theorem score_in_unit_interval researcher grant_description s :
  (∃ x s',
     score_researcher_for_grant researcher grant_description s = (Ok x, s')
     ∧ 0 <= x <= 1)
  ∧ (has_vector (interests_embedding researcher) = None →
     score_researcher_for_grant researcher grant_description s = (Ok 0, s)).
Proof.
  unfold score_researcher_for_grant. run. split.
  - destruct (has_vector _) as [u|]; [|eexists _, _; split; [done|lra]].
    destruct (get_embedding_ok grant_description s) as (v & s1 & Hg & _).
    rewrite Hg. destruct v as [v|]; eexists _, _; (split; [done|lra]).
  - by intros ->.
Qed.

(** *** The ranking operations *)

Ltac empty_result :=
  eexists _, _; split; [reflexivity|];
  split; [simpl; lia|]; split; constructor.

(** X15: every ranking operation returns at most [top_k] pairs, by
    non-increasing score, the pairs whose score is NaN (the rows with a
    zero vector) last; each researcher listed is a row of the table with a
    stored vector and, when a department is asked for, of that department;
    each publication listed is a row with a stored vector. *)
Theorem ranking_results_shape s top_k :
  (∀ thesis_abstract department, ∃ l s',
     find_supervisor_match thesis_abstract department top_k s = (Ok l, s')
     ∧ (length l ≤ Z.to_nat top_k)%nat
     ∧ Sorted (λ p p' : Researcher * float8, score_ge p.2 p'.2) l
     ∧ Forall (λ p : Researcher * float8,
                 p.1 ∈ researchers s
                 ∧ is_Some (interests_embedding p.1)
                 ∧ ∀ dep, department = Some dep → truthy dep = true →
                          Services.department p.1 = Some dep) l)
  ∧ (∀ grant_description department, ∃ l s',
       find_aligned_researchers grant_description department top_k s
       = (Ok l, s')
       ∧ (length l ≤ Z.to_nat top_k)%nat
       ∧ Sorted (λ p p' : Researcher * float8, score_ge p.2 p'.2) l
       ∧ Forall (λ p : Researcher * float8,
                   p.1 ∈ researchers s
                   ∧ is_Some (interests_embedding p.1)
                   ∧ ∀ dep, department = Some dep → truthy dep = true →
                            Services.department p.1 = Some dep) l)
  ∧ (∀ researcher, ∃ l s',
       find_thesis_matches researcher top_k s = (Ok l, s')
       ∧ (length l ≤ Z.to_nat top_k)%nat
       ∧ Sorted (λ p p' : Publication * float8, score_ge p.2 p'.2) l
       ∧ Forall (λ p : Publication * float8,
                   p.1 ∈ publications s
                   ∧ is_Some (abstract_embedding p.1)) l).
Proof.
  assert (∀ {A} (rows : list (A * float8)),
            Sorted (λ x y : A * float8, float8_le x.2 y.2) rows →
            Sorted (λ p p' : A * float8, score_ge p.2 p'.2)
              ((λ row : A * float8, (row.1, similarity_score row.2))
                 <$> rows)) as Hsorted.
  { intros A rows. apply Sorted_fmap. intros x y Hxy. simpl.
    by apply similarity_score_order. }
  split; [|split].
  - intros a d.
    destruct (find_supervisor_match_cases a d top_k s)
      as (v & s1 & Hg & Hr & ->).
    destruct v as [q|]; [|empty_result].
    destruct (ranked _ _ _ _) as [rows|] eqn:Hrk;
      [|empty_result].
    destruct (ranked_shape _ _ _ _ _ Hrk) as [Hlen Hs].
    eexists _, _. split; [reflexivity|].
    split; [by rewrite length_fmap|]. split; [by apply Hsorted|].
    apply Forall_fmap. eapply Forall_impl; [apply (ranked_ok _ _ _ _ _ Hrk)|].
    intros [r dist] [Hin (w & Hw & _)]. simpl in *. rewrite Hr in Hin.
    destruct (elem_of_filter_department _ _ _ Hin) as [Hrow Hdep].
    split; [done|]. split; [by exists w|done].
  - intros a d.
    destruct (find_aligned_researchers_cases a d top_k s)
      as (v & s1 & Hg & Hr & ->).
    destruct v as [q|]; [|empty_result].
    destruct (ranked _ _ _ _) as [rows|] eqn:Hrk;
      [|empty_result].
    destruct (ranked_shape _ _ _ _ _ Hrk) as [Hlen Hs].
    eexists _, _. split; [reflexivity|].
    split; [by rewrite length_fmap|]. split; [by apply Hsorted|].
    apply Forall_fmap. eapply Forall_impl; [apply (ranked_ok _ _ _ _ _ Hrk)|].
    intros [r dist] [Hin (w & Hw & _)]. simpl in *. rewrite Hr in Hin.
    destruct (elem_of_filter_department _ _ _ Hin) as [Hrow Hdep].
    split; [done|]. split; [by exists w|done].
  - intros r. rewrite find_thesis_matches_cases.
    destruct (has_vector _) as [q|];
      [|empty_result].
    destruct (ranked _ _ _ _) as [rows|] eqn:Hrk;
      [|empty_result].
    destruct (ranked_shape _ _ _ _ _ Hrk) as [Hlen Hs].
    eexists _, _. split; [reflexivity|].
    split; [by rewrite length_fmap|]. split; [by apply Hsorted|].
    apply Forall_fmap. eapply Forall_impl; [apply (ranked_ok _ _ _ _ _ Hrk)|].
    intros [p dist] [Hin (w & Hw & _)]. simpl in *.
    split; [done|by exists w].
Qed.

(** X16: with [top_k] zero or negative, every ranking operation returns
    the empty list. *)
Theorem ranking_top_k_not_positive s top_k :
  (top_k <= 0)%Z →
  (∀ thesis_abstract department,
     (find_supervisor_match thesis_abstract department top_k s).1 = Ok [])
  ∧ (∀ grant_description department,
       (find_aligned_researchers grant_description department top_k s).1
       = Ok [])
  ∧ (∀ researcher, (find_thesis_matches researcher top_k s).1 = Ok []).
Proof.
  intros Hk. split; [|split].
  - intros a d.
    destruct (find_supervisor_match_cases a d top_k s)
      as (v & s1 & Hg & Hr & ->).
    destruct v as [q|]; [|done].
    destruct (ranked _ _ _ _) as [rows|] eqn:Hrk; [|done].
    by rewrite (ranked_not_positive _ _ _ _ _ Hk Hrk).
  - intros a d.
    destruct (find_aligned_researchers_cases a d top_k s)
      as (v & s1 & Hg & Hr & ->).
    destruct v as [q|]; [|done].
    destruct (ranked _ _ _ _) as [rows|] eqn:Hrk; [|done].
    by rewrite (ranked_not_positive _ _ _ _ _ Hk Hrk).
  - intros r. rewrite find_thesis_matches_cases.
    destruct (has_vector _) as [q|]; [|done].
    destruct (ranked _ _ _ _) as [rows|] eqn:Hrk; [|done].
    by rewrite (ranked_not_positive _ _ _ _ _ Hk Hrk).
Qed.

End WithRuntime.

Lemma fallback_embedding_unit_norm_witness :
  ∃ v s',
    @get_embedding offline "ocean" (@fresh offline 0%Z [] [])
    = (Ok (Some v), s')
    ∧ norm v = 1
    ∧ length v = 384%nat.
Proof.
  destruct (@fallback_embedding_unit_norm offline "ocean"
              (@fresh offline 0%Z [] [])) as (v & s' & E & Hn & Hl).
  - intros H. vm_compute in H. discriminate H.
  - reflexivity.
  - apply Exists_cons_hd. lra.
  - exists v, s'. split; [exact E|]. split; [exact Hn|].
    rewrite Hl. apply repeat_length.
Defined.

Lemma ranking_top_k_not_positive_witness :
  (@find_supervisor_match tiny "climate" None (-1)
     (@fresh tiny 0%Z [bob] [])).1 = Ok []
  ∧ (@find_thesis_matches tiny bob 0 (@fresh tiny 0%Z [bob] [])).1 = Ok [].
Proof.
  destruct (@ranking_top_k_not_positive tiny (@fresh tiny 0%Z [bob] []) (-1))
    as (H1 & _ & _); [lia|].
  destruct (@ranking_top_k_not_positive tiny (@fresh tiny 0%Z [bob] []) 0)
    as (_ & _ & H3); [lia|].
  split; [apply H1|apply H3].
Defined.

End ServicesMore.

(** ** The signal handlers *)

Module SignalsFacts.

Import PyStr PyStrFacts Services ServicesFacts Signals.

Lemma not_blank_strip text :
  truthy text && truthy (strip text) = true ↔ strip text ≠ EmptyString.
Proof.
  pose proof (blank_strip text) as H.
  destruct (truthy text), (truthy (strip text)); simpl in *;
    split; intros H'; try done; try (intros E; apply H in E; done);
    destruct H'; apply H; done.
Qed.

Section WithRuntime.

Context `{rt : Runtime}.

(** X17: the researcher handler never raises and changes neither the
    interests nor the user.  It clears the stored vector when the list of
    interests is empty.  When the list is not empty but its interests are
    all blank, it leaves the stored vector as it was and logs a warning
    with the user's name, or, for an instance without user, the error
    raised by reading the name.  When the embedding service returns a
    vector, the vector is stored, and the log call that follows ends in
    the error for an instance without user. *)
Theorem researcher_signal_blank_interests instance s :
  (∃ instance' s',
     generate_researcher_embedding instance s = (Ok tt, instance', s')
     ∧ research_interests instance' = research_interests instance
     ∧ user instance' = user instance)
  ∧ (research_interests instance = [] →
     generate_researcher_embedding instance s
     = (Ok tt, set_interests_embedding instance None, s))
  ∧ (research_interests instance ≠ [] →
     strip (join " " (research_interests instance)) = EmptyString →
     ∃ s', generate_researcher_embedding instance s = (Ok tt, instance, s')
           ∧ log s'
             = log s
               ++ [match user instance with
                   | Some full_name =>
                       (WARNING,
                        "Failed to generate embedding for Researcher: "
                        +:+ full_name)
                   | None => (ERROR, "Error generating Researcher embedding")
                   end])
  ∧ (∀ v s1,
       research_interests instance ≠ [] →
       get_embedding (join " " (research_interests instance)) s
       = (Ok (Some v), s1) →
       ∃ s', generate_researcher_embedding instance s
             = (Ok tt, set_interests_embedding instance (Some v), s')
             ∧ log s'
               = log s1
                 ++ [match user instance with
                     | Some full_name =>
                         (INFO,
                          "Generated embedding for Researcher: "
                          +:+ full_name)
                     | None =>
                         (ERROR, "Error generating Researcher embedding")
                     end]).
Proof.
  unfold generate_researcher_embedding, try_except_instance, get_instance,
    set_instance, service, read, get_full_name, mbind, Handler_bind.
  destruct (research_interests instance) as [|i rest] eqn:Hi.
  - split; [eauto 6|]. split; [done|]. split; [by intros []|].
    by intros v s1 [].
  - destruct (get_embedding_ok (join " " (i :: rest)) s) as (v & s1 & Hg & _).
    split; [|split; [done|split]].
    + rewrite Hg. destruct v, (user instance) eqn:Hu; simpl;
        eexists _, _; (split; [reflexivity|]); simpl; by rewrite ?Hi, ?Hu.
    + intros _ Hb. rewrite (get_embedding_blank _ s Hb).
      destruct (user instance); simpl; eauto.
    + intros v' s1' _ Hg'. rewrite Hg'.
      destruct (user instance); simpl; eauto.
Qed.

(** X18: the publication handler never raises.  Without abstract, or with
    a blank one, it clears the stored vector without calling the embedding
    service; with any other abstract and the backend unavailable it stores
    the fallback vector of the abstract. *)
Theorem publication_signal_stores_vector instance s :
  (∃ instance' s',
     generate_publication_embedding instance s = (Ok instance', s')
     ∧ abstract instance' = abstract instance)
  ∧ ((∀ text, abstract instance = Some text → strip text = EmptyString) →
     generate_publication_embedding instance s
     = (Ok (set_abstract_embedding instance None), s))
  ∧ (∀ text, abstract instance = Some text → strip text ≠ EmptyString →
     unavailable s →
     ∃ s', generate_publication_embedding instance s
           = (Ok (set_abstract_embedding instance
                    (Some (spec_fallback text))), s')).
Proof.
  unfold generate_publication_embedding. run.
  destruct (abstract instance) as [text|] eqn:Ha.
  - destruct (truthy text && truthy (strip text)) eqn:Hb.
    + apply not_blank_strip in Hb.
      destruct (get_embedding_ok text s) as (v & s1 & Hg & _).
      split; [|split].
      * rewrite Hg. destruct v; simpl; eauto.
      * intros H. by destruct (Hb (H text eq_refl)).
      * intros text' [= <-] _ Hs.
        destruct (get_embedding_fallback text s Hb Hs) as [s' [E _]].
        rewrite E. simpl. eauto.
    + split; [eauto|]. split; [done|].
      intros text' [= <-] Hne. apply not_blank_strip in Hne. congruence.
  - split; [eauto|]. split; [done|]. discriminate.
Qed.

End WithRuntime.

Lemma researcher_signal_blank_interests_witness :
  (∃ s', @generate_researcher_embedding tiny blank_interests
           (@fresh tiny 0%Z [] []) = (Ok tt, blank_interests, s')
         ∧ log s' = [(ERROR, "Error generating Researcher embedding"%string)])
  ∧ (∃ s', @generate_researcher_embedding tiny blank_interests_of_user
             (@fresh tiny 0%Z [] []) = (Ok tt, blank_interests_of_user, s')
           ∧ log s'
             = [(WARNING,
                 "Failed to generate embedding for Researcher: Ada Lovelace"
                 %string)])
  ∧ (∃ s', @generate_researcher_embedding tiny new_researcher
             (@fresh tiny 0%Z [] [])
           = (Ok tt,
              set_interests_embedding new_researcher (Some [1%R; 0%R]), s')
           ∧ log s' = [(ERROR, "Error generating Researcher embedding"%string)]).
Proof.
  split; [|split].
  - destruct (@researcher_signal_blank_interests tiny blank_interests
                (@fresh tiny 0%Z [] [])) as (_ & _ & H & _).
    apply H; [discriminate|reflexivity].
  - destruct (@researcher_signal_blank_interests tiny blank_interests_of_user
                (@fresh tiny 0%Z [] [])) as (_ & _ & H & _).
    apply H; [discriminate|reflexivity].
  - destruct (@researcher_signal_blank_interests tiny new_researcher
                (@fresh tiny 0%Z [] [])) as (_ & _ & _ & H).
    destruct (H [1%R; 0%R] _ ltac:(discriminate) eq_refl) as (s' & E & Hl).
    exists s'. split; [exact E|exact Hl].
Defined.

Lemma publication_signal_stores_vector_witness :
  ∃ s', @generate_publication_embedding offline ocean_paper
          (@fresh offline 0%Z [] [])
        = (Ok (set_abstract_embedding ocean_paper
                 (Some (@spec_fallback offline "ocean acidification"))), s').
Proof.
  destruct (@publication_signal_stores_vector offline ocean_paper
              (@fresh offline 0%Z [] [])) as (_ & _ & H).
  apply (H "ocean acidification"%string); [reflexivity| |reflexivity].
  intros E. vm_compute in E. discriminate E.
Defined.

End SignalsFacts.

(** ** The collaboration graph *)

Module TasksFacts.

Import Tasks.

(** *** One step of the inner loop *)

Lemma count_edge_strength (date : option nat)
    (updates : gmap (nat * nat) Edge) (key key' : nat * nat) :
  strength_of (count_edge date updates key) key'
  = (strength_of updates key' + if decide (key = key') then 1 else 0)%Z.
Proof.
  unfold count_edge, strength_of.
  destruct (decide (key = key')) as [<-|Hne].
  - destruct (updates !! key) as [e|] eqn:He; destruct date as [d|];
      rewrite ?lookup_alter_eq, ?lookup_insert_eq, ?He; simpl; lia.
  - destruct (updates !! key) as [e|] eqn:He; destruct date as [d|];
      rewrite ?lookup_alter_ne, ?lookup_insert_ne by done;
      destruct (updates !! key'); lia.
Qed.

Lemma count_edge_is_Some (date : option nat)
    (updates : gmap (nat * nat) Edge) (key key' : nat * nat) :
  is_Some (count_edge date updates key !! key') →
  key' = key ∨ is_Some (updates !! key').
Proof.
  destruct (decide (key = key')) as [<-|Hne]; [by left|]. right.
  revert H. unfold count_edge.
  destruct (updates !! key) as [e|] eqn:He; destruct date as [d|];
    rewrite ?lookup_alter_ne, ?lookup_insert_ne by done; done.
Qed.

(** *** The loops *)

Lemma sum_list_cons (n : nat) (l : list nat) :
  sum_list (n :: l) = n + sum_list l.
Proof. reflexivity. Qed.

Lemma inner_loop_strength {B} (date : option nat) (key_of : B → nat * nat)
    (rows : list B) (updates : gmap (nat * nat) Edge) (key' : nat * nat) :
  strength_of
    (fold_left (λ updates row, count_edge date updates (key_of row))
       rows updates) key'
  = (strength_of updates key'
     + Z.of_nat (length (filter (λ row, key_of row = key') rows)))%Z.
Proof.
  revert updates. induction rows as [|row rows IH]; intros updates.
  - simpl. lia.
  - cbn [fold_left]. rewrite IH, count_edge_strength, filter_cons.
    destruct (decide (key_of row = key')); cbn [length]; lia.
Qed.

Lemma inner_loop_is_Some {B} (date : option nat) (key_of : B → nat * nat)
    (rows : list B) (updates : gmap (nat * nat) Edge) (key' : nat * nat) :
  is_Some
    (fold_left (λ updates row, count_edge date updates (key_of row))
       rows updates !! key') →
  (∃ row, row ∈ rows ∧ key' = key_of row) ∨ is_Some (updates !! key').
Proof.
  revert updates. induction rows as [|row rows IH]; intros updates; simpl.
  - by right.
  - intros [(row' & Hin & ->)|H]%IH.
    + left. exists row'. split; [by right|done].
    + apply count_edge_is_Some in H as [->|H]; [|by right].
      left. exists row. split; [by left|done].
Qed.

Lemma outer_loop_strength (all rows : list Authorship)
    (updates : gmap (nat * nat) Edge) (key' : nat * nat) :
  strength_of
    (fold_left
       (λ updates authorship,
          fold_left
            (λ updates co_authorship,
               count_edge (publication_date authorship) updates
                 (edge_key (researcher authorship)
                    (researcher co_authorship)))
            (co_authors all authorship) updates)
       rows updates) key'
  = (strength_of updates key'
     + Z.of_nat
         (sum_list
            ((λ x, length (filter (λ y, edge_key (researcher x) (researcher y)
                                        = key')
                             (co_authors all x))) <$> rows)))%Z.
Proof.
  revert updates. induction rows as [|x rows IH]; intros updates.
  - simpl. lia.
  - cbn [fold_left]. rewrite IH.
    rewrite (inner_loop_strength (publication_date x)
               (λ y, edge_key (researcher x) (researcher y))).
    rewrite fmap_cons, sum_list_cons. lia.
Qed.

Lemma outer_loop_is_Some (all rows : list Authorship)
    (updates : gmap (nat * nat) Edge) (key' : nat * nat) :
  is_Some
    (fold_left
       (λ updates authorship,
          fold_left
            (λ updates co_authorship,
               count_edge (publication_date authorship) updates
                 (edge_key (researcher authorship)
                    (researcher co_authorship)))
            (co_authors all authorship) updates)
       rows updates !! key') →
  (∃ x y, x ∈ rows ∧ y ∈ co_authors all x
          ∧ key' = edge_key (researcher x) (researcher y))
  ∨ is_Some (updates !! key').
Proof.
  revert updates. induction rows as [|x rows IH]; intros updates; simpl.
  - by right.
  - intros [(x' & y & Hx & Hy & ->)|H]%IH.
    + left. exists x', y. split; [by right|done].
    + apply (inner_loop_is_Some (publication_date x)
               (λ y, edge_key (researcher x) (researcher y))) in H
        as [(y & Hy & ->)|H]; [|by right].
      left. exists x, y. split; [by left|done].
Qed.

(** *** Counting *)

Lemma length_filter_split {B} (C P Q : B → Prop)
    `{!∀ y, Decision (C y), !∀ y, Decision (P y), !∀ y, Decision (Q y)}
    (l : list B) :
  (∀ y, C y ↔ P y ∨ Q y) → (∀ y, P y → Q y → False) →
  length (filter C l) = length (filter P l) + length (filter Q l).
Proof.
  intros HC Hdisj. induction l as [|y l IH]; [done|].
  rewrite !filter_cons.
  destruct (decide (C y)) as [Hc|Hc], (decide (P y)) as [Hp|Hp],
    (decide (Q y)) as [Hq|Hq]; simpl; rewrite IH; try lia;
    exfalso; first [by eapply Hdisj|apply HC in Hc; tauto|apply Hc, HC; tauto].
Qed.

Lemma sum_list_plus {B} (f g : B → nat) (l : list B) :
  sum_list ((λ y, f y + g y) <$> l) = sum_list (f <$> l) + sum_list (g <$> l).
Proof.
  induction l as [|y l IH]; [done|].
  rewrite !fmap_cons, !sum_list_cons, IH. lia.
Qed.

Lemma sum_list_indicator {B} (P : B → Prop) `{!∀ y, Decision (P y)}
    (l : list B) :
  sum_list ((λ y, if decide (P y) then 1 else 0) <$> l) = length (filter P l).
Proof.
  induction l as [|y l IH]; [done|].
  rewrite fmap_cons, sum_list_cons, filter_cons, IH.
  by destruct (decide (P y)).
Qed.

Lemma sum_list_zero {B} (l : list B) : sum_list ((λ _, 0) <$> l) = 0.
Proof.
  induction l as [|y l IH]; [done|]. by rewrite fmap_cons, sum_list_cons.
Qed.

(** Counting the pairs of a relation by rows or by columns. *)
Lemma count_pairs_swap {B} (Q : B → B → Prop)
    `{!∀ x y, Decision (Q x y)} (l1 l2 : list B) :
  sum_list ((λ x, length (filter (λ y, Q x y) l2)) <$> l1)
  = sum_list ((λ y, length (filter (λ x, Q x y) l1)) <$> l2).
Proof.
  induction l1 as [|x l1 IH].
  - symmetry. apply sum_list_zero.
  - rewrite fmap_cons, sum_list_cons, IH.
    rewrite <- (sum_list_indicator (λ y, Q x y) l2), <- sum_list_plus.
    f_equal. apply list_fmap_ext. intros _ y _.
    rewrite filter_cons. by destruct (decide (Q x y)).
Qed.

Lemma edge_key_eq (r1 r2 a b : nat) :
  a < b →
  edge_key r1 r2 = (a, b) ↔ (r1 = a ∧ r2 = b) ∨ (r1 = b ∧ r2 = a).
Proof.
  intros Hab. unfold edge_key. split.
  - intros [= H1 H2]. lia.
  - intros [[-> ->]|[-> ->]]; f_equal; lia.
Qed.

(** The visits of one pair of researchers: once from each of the two
    rows of every joint publication. *)
Lemma visits_of_pair (all : list Authorship) (a b : nat) :
  a < b →
  sum_list
    ((λ x, length (filter (λ y, edge_key (researcher x) (researcher y) = (a, b))
                     (co_authors all x))) <$> all)
  = 2 * joint_rows all a b.
Proof.
  intros Hab. unfold joint_rows.
  transitivity
    (sum_list
       ((λ x, length (filter (λ y, publication y = publication x
                                   ∧ researcher x = a ∧ researcher y = b) all)
              + length (filter (λ y, publication x = publication y
                                     ∧ researcher y = a ∧ researcher x = b)
                          all)) <$> all)).
  - f_equal. apply list_fmap_ext. intros _ x _.
    unfold co_authors. rewrite list_filter_filter.
    apply length_filter_split.
    + intros y. rewrite (edge_key_eq _ _ _ _ Hab). split.
      * intros [[[-> ->]|[-> ->]] [Hp Hr]]; [left|right]; done.
      * intros [(Hp & -> & ->)|(Hp & -> & ->)];
          (split; [tauto|split; [done|lia]]).
    + intros y (_ & -> & _) (_ & _ & ->). lia.
  - rewrite sum_list_plus.
    rewrite (count_pairs_swap
               (λ x y, publication x = publication y
                       ∧ researcher y = a ∧ researcher x = b) all all).
    lia.
Qed.

(** *** The dict *)

(** X19: the keys of [collaboration_updates] are pairs of two different
    researchers, the smaller id first, and both wrote some publication
    together. *)
Theorem collaboration_keys_ordered (authorships : list Authorship)
    (key : nat * nat) :
  is_Some (collaboration_updates authorships !! key) →
  key.1 < key.2
  ∧ ∃ x y, x ∈ authorships ∧ y ∈ authorships
           ∧ publication x = publication y
           ∧ key = (researcher x `min` researcher y,
                    researcher x `max` researcher y).
Proof.
  unfold collaboration_updates.
  intros [(x & y & Hx & Hy & ->)|H]%outer_loop_is_Some.
  - apply list_elem_of_filter in Hy as [[Hp Hr] Hy]. split.
    + unfold edge_key. simpl. lia.
    + exists x, y. done.
  - rewrite lookup_empty in H. by destruct H.
Qed.

Lemma collaboration_keys_ordered_witness :
  is_Some (collaboration_updates sample_authorships !! (2, 3))
  ∧ (2, 3).1 < (2, 3).2.
Proof.
  assert (is_Some (collaboration_updates sample_authorships !! (2, 3))) as H
    by (vm_compute; eauto).
  split; [exact H|]. exact (proj1 (collaboration_keys_ordered _ _ H)).
Defined.

(** X20: the strength recorded for a pair of researchers is twice the
    number of their joint authorship rows: each joint publication is
    visited from both of its rows. *)
Theorem collaboration_strength_doubled (authorships : list Authorship)
    (a b : nat) :
  a < b →
  strength_of (collaboration_updates authorships) (a, b)
  = (2 * Z.of_nat (joint_rows authorships a b))%Z.
Proof.
  intros Hab. unfold collaboration_updates.
  rewrite outer_loop_strength, (visits_of_pair _ _ _ Hab).
  unfold strength_of. rewrite lookup_empty. lia.
Qed.

Lemma collaboration_strength_doubled_witness :
  joint_rows sample_authorships 1 2 = 2
  ∧ strength_of (collaboration_updates sample_authorships) (1, 2) = 4%Z.
Proof.
  split; [reflexivity|].
  rewrite (collaboration_strength_doubled sample_authorships 1 2); [|lia].
  reflexivity.
Defined.

(** *** The entries *)

Lemma count_edge_lookup (date : option nat)
    (updates : gmap (nat * nat) Edge) (key key' : nat * nat) :
  count_edge date updates key !! key'
  = if decide (key = key') then visit (updates !! key) date
    else updates !! key'.
Proof.
  unfold count_edge, visit.
  destruct (decide (key = key')) as [<-|Hne].
  - destruct (updates !! key) as [e|] eqn:He; destruct date as [d|];
      rewrite ?lookup_alter_eq, ?lookup_insert_eq, ?He; done.
  - destruct (updates !! key) as [e|] eqn:He; destruct date as [d|];
      rewrite ?lookup_alter_ne, ?lookup_insert_ne by done; done.
Qed.

Lemma loops_are_visits (all rows : list Authorship)
    (updates : gmap (nat * nat) Edge) :
  fold_left
    (λ updates authorship,
       fold_left
         (λ updates co_authorship,
            count_edge (publication_date authorship) updates
              (edge_key (researcher authorship) (researcher co_authorship)))
         (co_authors all authorship) updates)
    rows updates
  = fold_left (λ updates v, count_edge v.1 updates v.2)
      (authorship ← rows;
       (λ co_authorship,
          (publication_date authorship,
           edge_key (researcher authorship) (researcher co_authorship)))
         <$> co_authors all authorship)
      updates.
Proof.
  revert updates. induction rows as [|x rows IH]; intros updates; [done|].
  rewrite bind_cons, fold_left_app. cbn [fold_left]. rewrite IH.
  f_equal. generalize (co_authors all x). intros l. revert updates.
  induction l as [|y l IHl]; intros updates; [done|].
  rewrite fmap_cons. cbn [fold_left]. apply IHl.
Qed.

Lemma visits_lookup (vs : list (option nat * (nat * nat)))
    (updates : gmap (nat * nat) Edge) (key : nat * nat) :
  fold_left (λ updates v, count_edge v.1 updates v.2) vs updates !! key
  = fold_left visit (dates_of key vs) (updates !! key).
Proof.
  revert updates. induction vs as [|[d k] vs IH]; intros updates; [done|].
  cbn [fold_left]. rewrite IH, count_edge_lookup. unfold dates_of.
  rewrite filter_cons. simpl.
  destruct (decide (k = key)) as [->|Hne]; done.
Qed.

Lemma visits_fold (dates : list (option nat)) (d : option nat)
    (entry : option Edge) :
  fold_left visit (d :: dates) entry
  = Some {| strength := from_option strength 0%Z entry
                        + Z.of_nat (length (d :: dates));
            last_date :=
              fold_left (λ acc d, match d with Some _ => d | None => acc end)
                (d :: dates) (entry ≫= last_date) |}.
Proof.
  revert d entry. induction dates as [|d' dates IH]; intros d entry.
  - done.
  - change (fold_left visit (d :: d' :: dates) entry)
      with (fold_left visit (d' :: dates) (visit entry d)).
    rewrite IH. unfold visit. cbn [from_option strength mbind option_bind
      last_date fold_left]. f_equal. f_equal.
    cbn [length]. lia.
Qed.

(** X21: the entry of a key is determined by the dates of its visits: no
    entry without a visit; otherwise the strength is the number of visits
    and the date is the last one given, or none when no visit has one. *)
Theorem collaboration_entry (authorships : list Authorship)
    (key : nat * nat) :
  collaboration_updates authorships !! key
  = match dates_of key (visits authorships) with
    | [] => None
    | dates => Some {| strength := Z.of_nat (length dates);
                       last_date := last_given dates |}
    end.
Proof.
  unfold collaboration_updates, visits.
  rewrite loops_are_visits, visits_lookup, lookup_empty.
  destruct (dates_of key _) as [|d dates]; [done|].
  rewrite visits_fold. unfold last_given. simpl. do 2 f_equal.
Qed.

Lemma collaboration_entry_witness :
  collaboration_updates sample_authorships !! (1, 2)
  = Some {| strength := 4; last_date := Some 2021 |}.
Proof.
  rewrite (collaboration_entry sample_authorships (1, 2)). reflexivity.
Defined.

End TasksFacts.
